(** * TradeSync: quote totals and bank reconciliation

    A shallow embedding of the two computational pieces of the application:

    - the quote/invoice totals calculator ([quoteCalculations.ts]),
    - the bank reconciliation matcher: the suggestion pass of
      [ReconciliationPage.tsx] and the stored procedures of the migration
      [20260110_multi_reconciliation.sql].

    TypeScript [number]s are IEEE 754 binary64 values and are embedded as the
    primitive floats of the kernel, so that every arithmetic expression of the
    source evaluates here to the value it has in the browser. *)

From Stdlib Require Import Floats ZArith List String Bool Lia.
From stdpp Require Import base option list gmap strings.
Import ListNotations.

(** A decimal literal of the source denotes the nearest binary64 value, here
    as in JavaScript. *)
#[local] Set Warnings "-inexact-float".

Local Open Scope string_scope.

(** ** JavaScript values and operators used by the source *)

Module Js.

(** [number]: a binary64 float, with its single [NaN], two zeros and two
    infinities. *)
Definition number : Type := float.

(** [ToBoolean] on a number: false for [+0], [-0] and [NaN]. *)
Definition ToBoolean (x : number) : bool :=
  negb ((x =? 0)%float || is_nan x).

(** [x || d] for [x : number | undefined] and a number [d]. *)
Definition or_else (x : option number) (d : number) : number :=
  match x with
  | Some v => if ToBoolean v then v else d
  | None => d
  end.

(** [x ?? d]: only [undefined] falls through to [d]. *)
Definition nullish {A : Type} (x : option A) (d : A) : A :=
  match x with
  | Some v => v
  | None => d
  end.

(** [!b] for [b : boolean | undefined]. *)
Definition not_flag (b : option bool) : bool :=
  match b with
  | Some true => false
  | _ => true
  end.

(** [!x] for [x : number | undefined]. *)
Definition not_number (x : option number) : bool :=
  match x with
  | Some v => negb (ToBoolean v)
  | None => true
  end.

(** [ToNumber] on [number | undefined]: [undefined] becomes [NaN]. *)
Definition ToNumber (x : option number) : number :=
  match x with
  | Some v => v
  | None => nan
  end.

(** [xs && p(xs)] for an optional array [xs]. *)
Definition and_then {A : Type} (x : option A) (p : A -> bool) : bool :=
  match x with
  | Some v => p v
  | None => false
  end.

(** [xs.reduce((sum, x) => sum + x, 0)]: addition from the left. *)
Definition sum (xs : list number) : number :=
  fold_left PrimFloat.add xs 0%float.

(** A number that is neither [NaN] nor the negative zero. *)
Definition ordinary (x : number) : Prop :=
  is_nan x = false /\ x <> (-0)%float.

(** An optional number that is absent or [ordinary]. *)
Definition absent_or_ordinary (x : option number) : Prop :=
  match x with
  | Some v => ordinary v
  | None => True
  end.

End Js.

Notation "x ?? d" := (Js.nullish x d) (at level 45, right associativity).
Notation "x '<||>' d" := (Js.or_else x d) (at level 45, right associativity).

(** ** The totals engine ([quoteCalculations.ts]) *)

(** Modelled from the spec: [types.ts], which declares [MaterialItem],
    [LabourItem], [QuoteSection], [Quote] and [QuoteDisplayOptions], is
    missing.  Each record lists the fields the calculator reads; a field the
    calculator guards with [||], [??], [!] or [!== undefined] is optional, and
    [None] stands for [undefined].  The part-payment settings of a document
    are the columns [part_payment_enabled], [part_payment_type] and
    [part_payment_value] that [20260117_part_payment_fields.sql] adds to
    [quotes]. *)
Module MaterialItem.
Record t : Type := mk {
  totalPrice : option Js.number;
  isHeading : option bool
}.
End MaterialItem.

Module LabourItem.
Record t : Type := mk {
  hours : Js.number;
  rate : option Js.number
}.
End LabourItem.

Module QuoteSection.
Record t : Type := mk {
  items : option (list MaterialItem.t);
  labourItems : option (list LabourItem.t);
  labourHours : option Js.number;
  labourRate : option Js.number;
  labourCost : option Js.number;
  subsectionPrice : option Js.number
}.
End QuoteSection.

Inductive AmountType : Type := percentage | fixed.

Module Quote.
Record t : Type := mk {
  sections : option (list QuoteSection.t);
  labourRate : option Js.number;
  markupPercent : option Js.number;
  discountType : option AmountType;
  discountValue : option Js.number;
  taxPercent : option Js.number;
  cisPercent : option Js.number;
  partPaymentEnabled : option bool;
  partPaymentType : option AmountType;
  partPaymentValue : option Js.number
}.

(** The same document with other part-payment settings. *)
Definition with_partPayment (quote : t) (enabled : option bool)
    (type : option AmountType) (value : option Js.number) : t :=
  {| sections := sections quote;
     labourRate := labourRate quote;
     markupPercent := markupPercent quote;
     discountType := discountType quote;
     discountValue := discountValue quote;
     taxPercent := taxPercent quote;
     cisPercent := cisPercent quote;
     partPaymentEnabled := enabled;
     partPaymentType := type;
     partPaymentValue := value |}.
End Quote.

Module QuoteDisplayOptions.
Record t : Type := mk {
  showVat : bool;
  showCis : bool
}.
End QuoteDisplayOptions.

Module CalculationOptions.
Record t : Type := mk {
  enableVat : bool;
  enableCis : bool;
  showVat : bool;
  showCis : bool;
  defaultLabourRate : Js.number
}.
End CalculationOptions.

(** The inline option types of [calculateVat] and [calculateCis]. *)
Module VatOptions.
Record t : Type := mk { enableVat : bool; showVat : bool }.
End VatOptions.

Module CisOptions.
Record t : Type := mk { enableCis : bool; showCis : bool }.
End CisOptions.

Module QuoteTotals.
Record t : Type := mk {
  materialsTotal : Js.number;
  labourTotal : Js.number;
  sectionsTotal : Js.number;
  clientSubtotal : Js.number;
  discountAmount : Js.number;
  afterDiscount : Js.number;
  taxAmount : Js.number;
  cisAmount : Js.number;
  grandTotal : Js.number
}.

(** The own properties of the object, in declaration order. *)
Definition entries (o : t) : list (string * Js.number) :=
  [ ("materialsTotal", materialsTotal o);
    ("labourTotal", labourTotal o);
    ("sectionsTotal", sectionsTotal o);
    ("clientSubtotal", clientSubtotal o);
    ("discountAmount", discountAmount o);
    ("afterDiscount", afterDiscount o);
    ("taxAmount", taxAmount o);
    ("cisAmount", cisAmount o);
    ("grandTotal", grandTotal o) ].

Definition keys (o : t) : list string := map fst (entries o).
End QuoteTotals.

Module QuoteCalculations.
Import Js.
Local Open Scope float_scope.

(** [quoteLabourRate] is declared a [number], and is optional here because
    the body guards it with [??]. *)
Definition calculateSectionLabour
    (section : QuoteSection.t)
    (quoteLabourRate : option number)
    (defaultLabourRate : number) : number :=
  let effectiveRate :=
    QuoteSection.labourRate section ?? quoteLabourRate ?? defaultLabourRate in
  if and_then (QuoteSection.labourItems section)
       (fun labourItems => (0 <? length labourItems)%nat)
  then
    fold_left
      (fun sum item =>
         let rate := LabourItem.rate item ?? effectiveRate in
         sum + LabourItem.hours item * rate)
      (QuoteSection.labourItems section ?? []) 0
  else
    match QuoteSection.labourCost section with
    | Some labourCost => labourCost
    | None => (QuoteSection.labourHours section <||> 0) * effectiveRate
    end.

Definition calculateSectionMaterials (section : QuoteSection.t) : number :=
  fold_left
    (fun sum item => sum + (MaterialItem.totalPrice item <||> 0))
    (List.filter
       (fun item => not_flag (MaterialItem.isHeading item))
       (QuoteSection.items section ?? []))
    0.

Definition calculateSectionPrice
    (section : QuoteSection.t)
    (materialsTotal labourTotal : number) : number :=
  match QuoteSection.subsectionPrice section with
  | Some subsectionPrice => subsectionPrice
  | None => materialsTotal + labourTotal
  end.

Definition calculateDiscount
    (subtotal : number)
    (discountType : option AmountType)
    (discountValue : option number) : number :=
  if not_number discountValue then 0
  else
    match discountType with
    | Some percentage => subtotal * (ToNumber discountValue / 100)
    | _ => ToNumber discountValue
    end.

Definition calculateVat
    (afterDiscount : number) (taxPercent : option number)
    (options : VatOptions.t) : number :=
  if negb (VatOptions.enableVat options) || negb (VatOptions.showVat options)
  then 0
  else afterDiscount * ((taxPercent <||> 0) / 100).

Definition calculateCis
    (labourTotal : number) (cisPercent : option number)
    (options : CisOptions.t) : number :=
  if negb (CisOptions.enableCis options) || negb (CisOptions.showCis options)
  then 0
  else labourTotal * ((cisPercent <||> 0) / 100).

Definition calculatePartPayment
    (grandTotal : number)
    (enabled : option bool)
    (type : option AmountType)
    (value : option number) : number :=
  if not_flag enabled || not_number value then 0
  else
    match type with
    | Some percentage => grandTotal * (ToNumber value / 100)
    | _ => ToNumber value
    end.

(** The three accumulators of the [forEach] loop. *)
Record running : Type := mkRunning {
  r_materialsTotal : number;
  r_labourTotal : number;
  r_sectionsTotal : number
}.

Definition addSection
    (quote : Quote.t) (options : CalculationOptions.t)
    (acc : running) (section : QuoteSection.t) : running :=
  let sectionMaterials := calculateSectionMaterials section in
  let sectionLabour :=
    calculateSectionLabour section (Quote.labourRate quote)
      (CalculationOptions.defaultLabourRate options) in
  let sectionPrice :=
    calculateSectionPrice section sectionMaterials sectionLabour in
  {| r_materialsTotal := r_materialsTotal acc + sectionMaterials;
     r_labourTotal := r_labourTotal acc + sectionLabour;
     r_sectionsTotal := r_sectionsTotal acc + sectionPrice |}.

Definition calculateQuoteTotals
    (quote : Quote.t)
    (options : CalculationOptions.t)
    (displayOptions : QuoteDisplayOptions.t) : QuoteTotals.t :=
  let sections := Quote.sections quote ?? [] in
  let markupMultiplier := 1 + (Quote.markupPercent quote <||> 0) / 100 in
  let acc :=
    fold_left (addSection quote options) sections
      {| r_materialsTotal := 0; r_labourTotal := 0; r_sectionsTotal := 0 |} in
  let materialsTotal := r_materialsTotal acc in
  let labourTotal := r_labourTotal acc in
  let sectionsTotal := r_sectionsTotal acc in
  let clientSubtotal := sectionsTotal * markupMultiplier in
  let discountAmount :=
    calculateDiscount clientSubtotal
      (Quote.discountType quote) (Quote.discountValue quote) in
  let afterDiscount := clientSubtotal - discountAmount in
  let taxAmount :=
    calculateVat afterDiscount (Quote.taxPercent quote)
      {| VatOptions.enableVat := CalculationOptions.enableVat options;
         VatOptions.showVat := QuoteDisplayOptions.showVat displayOptions |} in
  let cisAmount :=
    calculateCis labourTotal (Quote.cisPercent quote)
      {| CisOptions.enableCis := CalculationOptions.enableCis options;
         CisOptions.showCis := QuoteDisplayOptions.showCis displayOptions |} in
  let grandTotal := (afterDiscount + taxAmount) - cisAmount in
  {| QuoteTotals.materialsTotal := materialsTotal;
     QuoteTotals.labourTotal := labourTotal;
     QuoteTotals.sectionsTotal := sectionsTotal;
     QuoteTotals.clientSubtotal := clientSubtotal;
     QuoteTotals.discountAmount := discountAmount;
     QuoteTotals.afterDiscount := afterDiscount;
     QuoteTotals.taxAmount := taxAmount;
     QuoteTotals.cisAmount := cisAmount;
     QuoteTotals.grandTotal := grandTotal |}.

End QuoteCalculations.

(** ** The suggestion pass of the reconciliation page ([ReconciliationPage.tsx]) *)

Module BankTransaction.
Record t : Type := mk {
  id : string;
  transaction_date : string;
  description : string;
  amount : Js.number;
  balance : option Js.number;
  is_reconciled : bool;
  reconciled_expense_id : option string;
  reconciled_invoice_id : option string
}.
End BankTransaction.

Module Expense.
Record t : Type := mk {
  id : string;
  vendor : string;
  amount : Js.number;
  expense_date : string;
  is_reconciled : bool;
  category : string
}.
End Expense.

Module Invoice.
Record t : Type := mk {
  id : string;
  reference_number : Js.number;
  total : Js.number;
  updated_at : string;
  status : string;
  type : string
}.
End Invoice.

Inductive Confidence : Type := high | medium | low.

Module SuggestedMatch.
Record t : Type := mk {
  transaction : BankTransaction.t;
  expense : option Expense.t;
  invoice : option Invoice.t;
  confidence : Confidence;
  reason : string
}.
End SuggestedMatch.

Module Matcher.
Import Js.

Section AutoMatch.
Local Open Scope float_scope.

(** The built-ins of the host the effect calls: [new Date(s)], given by
    its time value in milliseconds ([NaN] for a string that is no date),
    [Number.prototype.toFixed], and the conversion of a number to a string
    in a template literal. *)
Variable Date_new : string -> number.
Variable toFixed : number -> nat -> string.
Variable Number_toString : number -> string.

Definition getTime (d : number) : number := d.

Definition msPerDay : number := 1000 * 60 * 60 * 24.

(** The callback of [unreconciledExp.filter]. *)
Definition expenseMatches
    (txAmount txDate : number) (exp : Expense.t) : bool :=
  let expAmount := Expense.amount exp in
  let expDate := Date_new (Expense.expense_date exp) in
  let daysDiff := abs ((getTime txDate - getTime expDate) / msPerDay) in
  if (abs (txAmount - expAmount) <? 0.01) && (daysDiff <=? 7) then true
  else
    let amountWithVat := expAmount * 1.2 in
    if (abs (txAmount - amountWithVat) <? 0.01) && (daysDiff <=? 7) then true
    else false.

(** The callback of [invoices.filter]. *)
Definition invoiceMatches
    (txAmount txDate : number) (inv : Invoice.t) : bool :=
  let invAmount := Invoice.total inv in
  let invDate := Date_new (Invoice.updated_at inv) in
  let daysDiff := abs ((getTime txDate - getTime invDate) / msPerDay) in
  (abs (txAmount - invAmount) <? 0.01) && (daysDiff <=? 30).

(** What the branch [if (tx.amount < 0)] pushes on [matches]. *)
Definition outgoingSuggestions
    (unreconciledExp : list Expense.t) (tx : BankTransaction.t)
    : list SuggestedMatch.t :=
  if BankTransaction.amount tx <? 0 then
    let txAmount := abs (BankTransaction.amount tx) in
    let txDate := Date_new (BankTransaction.transaction_date tx) in
    let matchingExpenses :=
      List.filter (expenseMatches txAmount txDate) unreconciledExp in
    match matchingExpenses with
    | bestMatch :: _ =>
        let daysDiff :=
          abs ((getTime txDate
                - getTime (Date_new (Expense.expense_date bestMatch)))
               / msPerDay) in
        let exactAmount :=
          abs (txAmount - Expense.amount bestMatch) <? 0.01 in
        [ {| SuggestedMatch.transaction := tx;
             SuggestedMatch.expense := Some bestMatch;
             SuggestedMatch.invoice := None;
             SuggestedMatch.confidence :=
               if exactAmount && (daysDiff <=? 2) then high
               else if daysDiff <=? 5 then medium else low;
             SuggestedMatch.reason :=
               if exactAmount then
                 ("Exact amount match (£" ++ toFixed txAmount 2 ++ "), "
                  ++ toFixed daysDiff 0 ++ " days apart")%string
               else
                 ("Amount with VAT match, "
                  ++ toFixed daysDiff 0 ++ " days apart")%string |} ]
    | [] => []
    end
  else [].

(** What the branch [if (tx.amount > 0)] pushes on [matches]. *)
Definition incomingSuggestions
    (invoices : list Invoice.t) (tx : BankTransaction.t)
    : list SuggestedMatch.t :=
  if 0 <? BankTransaction.amount tx then
    let txAmount := BankTransaction.amount tx in
    let txDate := Date_new (BankTransaction.transaction_date tx) in
    let matchingInvoices :=
      List.filter (invoiceMatches txAmount txDate) invoices in
    match matchingInvoices with
    | bestMatch :: _ =>
        let daysDiff :=
          abs ((getTime txDate
                - getTime (Date_new (Invoice.updated_at bestMatch)))
               / msPerDay) in
        [ {| SuggestedMatch.transaction := tx;
             SuggestedMatch.expense := None;
             SuggestedMatch.invoice := Some bestMatch;
             SuggestedMatch.confidence :=
               if daysDiff <=? 7 then high
               else if daysDiff <=? 14 then medium else low;
             SuggestedMatch.reason :=
               ("Invoice #"
                ++ Number_toString (Invoice.reference_number bestMatch)
                ++ " (£" ++ toFixed (Invoice.total bestMatch) 2 ++ "), "
                ++ toFixed daysDiff 0 ++ " days apart")%string |} ]
    | [] => []
    end
  else [].

(** One turn of [unreconciledTx.forEach]: the suggestions pushed for [tx]. *)
Definition suggestionsFor
    (unreconciledExp : list Expense.t) (invoices : list Invoice.t)
    (tx : BankTransaction.t) : list SuggestedMatch.t :=
  outgoingSuggestions unreconciledExp tx ++ incomingSuggestions invoices tx.

(** The auto-match effect as a function of the [suggestions] state it
    may replace: with no transactions it returns before [setSuggestions]. *)
Definition autoMatch
    (suggestions : list SuggestedMatch.t)
    (transactions : list BankTransaction.t)
    (expenses : list Expense.t)
    (invoices : list Invoice.t) : list SuggestedMatch.t :=
  if (length transactions =? 0)%nat then suggestions
  else
    let unreconciledTx :=
      List.filter (fun tx => negb (BankTransaction.is_reconciled tx))
        transactions in
    let unreconciledExp :=
      List.filter (fun exp => negb (Expense.is_reconciled exp)) expenses in
    flat_map (suggestionsFor unreconciledExp invoices) unreconciledTx.

(** The matching rule in the words of the specification: within seven
    days, and the amounts equal to the penny either as they are or after
    the expense is grossed up by the fixed factor 1.2. *)
Definition spec_expense_qualifies
    (t : BankTransaction.t) (e : Expense.t) : bool :=
  let magnitude := abs (BankTransaction.amount t) in
  let days :=
    abs ((Date_new (BankTransaction.transaction_date t)
          - Date_new (Expense.expense_date e)) / 86400000) in
  (days <=? 7)
  && ((abs (magnitude - Expense.amount e) <? 0.01)
      || (abs (magnitude - Expense.amount e * 1.2) <? 0.01)).

End AutoMatch.
End Matcher.

(** ** The settlement ledger ([20260110_multi_reconciliation.sql]) *)

Module Ledger.

Definition uuid : Type := string.

(** [DECIMAL(10,2)], held as a whole number of hundredths. *)
Definition decimal : Type := Z.

(** Modelled from the spec: the [CREATE TABLE] statements of
    [bank_transactions], [expenses] and [quotes] are missing.  Each row type
    lists the columns that the two functions of the migration and the
    reconciliation page read or write; the primary key [id] is the key of
    the table. *)
Record bank_transactions_row : Type := mk_bank_transaction {
  bt_user_id : uuid;
  bt_amount : decimal;
  bt_is_reconciled : bool;
  bt_reconciled_expense_id : option uuid;
  bt_reconciled_invoice_id : option uuid
}.

Record expenses_row : Type := mk_expense {
  ex_amount : decimal;
  ex_is_reconciled : bool;
  ex_reconciled_transaction_id : option uuid
}.

Record quotes_row : Type := mk_quote {
  q_type : string;
  q_status : string;
  q_total : decimal
}.

(** A row of [reconciliation_links].  The generated columns [id]
    ([gen_random_uuid()]) and [created_at] ([NOW()]) are left out: no
    statement of the migration reads them. *)
Record reconciliation_links_row : Type := mk_link {
  user_id : uuid;
  bank_transaction_id : uuid;
  expense_id : option uuid;
  invoice_id : option uuid;
  amount_matched : option decimal
}.

Record db : Type := mk_db {
  bank_transactions : gmap uuid bank_transactions_row;
  expenses : gmap uuid expenses_row;
  quotes : gmap uuid quotes_row;
  reconciliation_links : list reconciliation_links_row
}.

Inductive sql_error : Type :=
| raise_exception (message : string)
| check_violation (constraint : string)
| unique_violation
| foreign_key_violation.

(** A statement either yields a value or raises, which aborts the function
    and rolls back everything it wrote. *)
Inductive result (A : Type) : Type :=
| Ok (a : A)
| Raise (e : sql_error).
Arguments Ok {A} a.
Arguments Raise {A} e.

Definition bind {A B : Type} (c : result A) (k : A -> result B) : result B :=
  match c with
  | Ok a => k a
  | Raise e => Raise e
  end.

Notation "'let*' x ':=' c 'in' k" := (bind c (fun x => k))
  (at level 10, x name, c at level 100, k at level 200).

Definition guard (b : bool) (e : sql_error) : result unit :=
  if b then Ok tt else Raise e.

(** [FOREACH v IN ARRAY a LOOP body END LOOP]. *)
Fixpoint foreach {A : Type} (body : A -> db -> result db)
    (a : list A) (s : db) : result db :=
  match a with
  | [] => Ok s
  | v :: rest => let* s' := body v s in foreach body rest s'
  end.

(** What the caller observes: the state a call leaves behind. *)
Definition commit (s : db) (r : result db) : db :=
  match r with
  | Ok s' => s'
  | Raise _ => s
  end.

Definition set_bank_transactions (f : gmap uuid bank_transactions_row ->
                                      gmap uuid bank_transactions_row)
    (s : db) : db :=
  {| bank_transactions := f (bank_transactions s);
     expenses := expenses s;
     quotes := quotes s;
     reconciliation_links := reconciliation_links s |}.

Definition set_expenses (f : gmap uuid expenses_row -> gmap uuid expenses_row)
    (s : db) : db :=
  {| bank_transactions := bank_transactions s;
     expenses := f (expenses s);
     quotes := quotes s;
     reconciliation_links := reconciliation_links s |}.

Definition set_reconciliation_links
    (f : list reconciliation_links_row -> list reconciliation_links_row)
    (s : db) : db :=
  {| bank_transactions := bank_transactions s;
     expenses := expenses s;
     quotes := quotes s;
     reconciliation_links := f (reconciliation_links s) |}.

(** [UPDATE expenses SET is_reconciled = true, reconciled_transaction_id =
    p_transaction_id] on one row. *)
Definition mark_expense (p_transaction_id : uuid) (e : expenses_row)
    : expenses_row :=
  {| ex_amount := ex_amount e;
     ex_is_reconciled := true;
     ex_reconciled_transaction_id := Some p_transaction_id |}.

(** [UPDATE expenses SET is_reconciled = false, reconciled_transaction_id =
    NULL] on one row. *)
Definition unmark_expense (e : expenses_row) : expenses_row :=
  {| ex_amount := ex_amount e;
     ex_is_reconciled := false;
     ex_reconciled_transaction_id := None |}.

(** [UPDATE bank_transactions SET is_reconciled = true] on one row. *)
Definition mark_transaction (t : bank_transactions_row)
    : bank_transactions_row :=
  {| bt_user_id := bt_user_id t;
     bt_amount := bt_amount t;
     bt_is_reconciled := true;
     bt_reconciled_expense_id := bt_reconciled_expense_id t;
     bt_reconciled_invoice_id := bt_reconciled_invoice_id t |}.

(** [UPDATE bank_transactions SET is_reconciled = false,
    reconciled_expense_id = NULL, reconciled_invoice_id = NULL] on one row. *)
Definition unmark_transaction (t : bank_transactions_row)
    : bank_transactions_row :=
  {| bt_user_id := bt_user_id t;
     bt_amount := bt_amount t;
     bt_is_reconciled := false;
     bt_reconciled_expense_id := None;
     bt_reconciled_invoice_id := None |}.

(** [CONSTRAINT expense_or_invoice CHECK (...)]. *)
Definition expense_or_invoice (l : reconciliation_links_row) : bool :=
  match expense_id l, invoice_id l with
  | Some _, None => true
  | None, Some _ => true
  | _, _ => false
  end.

(** [UNIQUE(bank_transaction_id, c)]: two rows clash when they agree on the
    transaction and on a column [c] that is not null in either. *)
Definition clashes (c : reconciliation_links_row -> option uuid)
    (l l' : reconciliation_links_row) : bool :=
  bool_decide (bank_transaction_id l = bank_transaction_id l')
  && match c l, c l' with
     | Some a, Some b => bool_decide (a = b)
     | _, _ => false
     end.

(** [REFERENCES t(id)] on a nullable column. *)
Definition references {V : Type} (t : gmap uuid V) (c : option uuid) : bool :=
  match c with
  | Some k => bool_decide (is_Some (t !! k))
  | None => true
  end.

(** [INSERT INTO reconciliation_links (...) VALUES (...)] under the
    constraints of the table: the check, the two unique constraints and the
    three references to tables of the ledger.  The fourth reference, of
    [user_id] to [auth.users], holds for a user id read off a transaction. *)
Definition insert_reconciliation_link
    (l : reconciliation_links_row) (s : db) : result db :=
  let* _ :=
    guard (expense_or_invoice l) (check_violation "expense_or_invoice") in
  let* _ :=
    guard (negb (existsb (clashes expense_id l) (reconciliation_links s)))
      unique_violation in
  let* _ :=
    guard (negb (existsb (clashes invoice_id l) (reconciliation_links s)))
      unique_violation in
  let* _ :=
    guard (references (bank_transactions s) (Some (bank_transaction_id l)))
      foreign_key_violation in
  let* _ :=
    guard (references (expenses s) (expense_id l)) foreign_key_violation in
  let* _ :=
    guard (references (quotes s) (invoice_id l)) foreign_key_violation in
  Ok (set_reconciliation_links (fun links => (links ++ [l])%list) s).

(** The body of the loop over [p_expense_ids]. *)
Definition link_expense (v_user_id p_transaction_id : uuid)
    (v_expense_id : option uuid) (s : db) : result db :=
  let v_expense_amount :=
    k ← v_expense_id; ex_amount <$> expenses s !! k in
  let* s :=
    insert_reconciliation_link
      {| user_id := v_user_id;
         bank_transaction_id := p_transaction_id;
         expense_id := v_expense_id;
         invoice_id := None;
         amount_matched := v_expense_amount |} s in
  Ok (set_expenses
        (fun t =>
           match v_expense_id with
           | Some k => alter (mark_expense p_transaction_id) k t
           | None => t
           end) s).

(** The body of the loop over [p_invoice_ids]. *)
Definition link_invoice (v_user_id p_transaction_id : uuid)
    (v_invoice_id : option uuid) (s : db) : result db :=
  let v_invoice_amount :=
    k ← v_invoice_id; q_total <$> quotes s !! k in
  insert_reconciliation_link
    {| user_id := v_user_id;
       bank_transaction_id := p_transaction_id;
       expense_id := None;
       invoice_id := v_invoice_id;
       amount_matched := v_invoice_amount |} s.

Definition reconcile_transaction_multi
    (p_transaction_id : uuid)
    (p_expense_ids p_invoice_ids : option (list (option uuid)))
    (s : db) : result db :=
  match bt_user_id <$> bank_transactions s !! p_transaction_id with
  | None => Raise (raise_exception "Transaction not found")
  | Some v_user_id =>
      let s :=
        set_reconciliation_links
          (filter (fun l => bank_transaction_id l <> p_transaction_id)) s in
      let* s :=
        match p_expense_ids with
        | Some ids => foreach (link_expense v_user_id p_transaction_id) ids s
        | None => Ok s
        end in
      let* s :=
        match p_invoice_ids with
        | Some ids => foreach (link_invoice v_user_id p_transaction_id) ids s
        | None => Ok s
        end in
      Ok (set_bank_transactions (alter mark_transaction p_transaction_id) s)
  end.

Definition unreconcile_transaction (p_transaction_id : uuid) (s : db)
    : result db :=
  let s :=
    set_expenses
      (fmap (fun e =>
               if bool_decide (ex_reconciled_transaction_id e
                               = Some p_transaction_id)
               then unmark_expense e
               else e)) s in
  let s :=
    set_reconciliation_links
      (filter (fun l => bank_transaction_id l <> p_transaction_id)) s in
  Ok (set_bank_transactions (alter unmark_transaction p_transaction_id) s).

(** The links a transaction has. *)
Definition links_of (p_transaction_id : uuid) (s : db)
    : list reconciliation_links_row :=
  filter (fun l => bank_transaction_id l = p_transaction_id)
    (reconciliation_links s).

(** The [is_reconciled] flag of a transaction, when the row exists. *)
Definition transaction_flag (p_transaction_id : uuid) (s : db) : option bool :=
  bt_is_reconciled <$> bank_transactions s !! p_transaction_id.

End Ledger.

(** ** The totals in the words of the specification *)

Module TotalsSpec.
Import Js.
Local Open Scope float_scope.

(** "First non-null wins". *)
Fixpoint first_non_null (candidates : list (option number))
    (fallback : number) : number :=
  match candidates with
  | [] => fallback
  | Some v :: _ => v
  | None :: rest => first_non_null rest fallback
  end.

Definition effectiveRate (section : QuoteSection.t)
    (documentRate : option number) (defaultRate : number) : number :=
  first_non_null [QuoteSection.labourRate section; documentRate] defaultRate.

(** Itemized labour: the sum over items of hours times the item's own rate
    or else the effective rate. *)
Definition itemized (rate : number) (labourItems : list LabourItem.t) : number :=
  sum (map (fun item => LabourItem.hours item * (LabourItem.rate item ?? rate))
         labourItems).

(** Labour by strict precedence: itemized, then direct cost, then hours. *)
Definition sectionLabour (section : QuoteSection.t)
    (documentRate : option number) (defaultRate : number) : number :=
  let rate := effectiveRate section documentRate defaultRate in
  match QuoteSection.labourItems section with
  | Some (item :: rest) => itemized rate (item :: rest)
  | _ =>
      match QuoteSection.labourCost section with
      | Some cost => cost
      | None => (QuoteSection.labourHours section ?? 0) * rate
      end
  end.

(** Materials: the sum of [totalPrice] over the items that are no heading,
    a missing price counting as 0. *)
Definition sectionMaterials (section : QuoteSection.t) : number :=
  sum (map (fun item => MaterialItem.totalPrice item ?? 0)
         (List.filter
            (fun item =>
               negb (bool_decide (MaterialItem.isHeading item = Some true)))
            (QuoteSection.items section ?? []))).

(** Section price: the override when there is one, else materials + labour. *)
Definition sectionPrice (section : QuoteSection.t)
    (materials labour : number) : number :=
  QuoteSection.subsectionPrice section ?? (materials + labour).

(** The names of the fields of the totals object. *)
Definition totals_fields : list string :=
  [ "materialsTotal"; "labourTotal"; "sectionsTotal"; "clientSubtotal";
    "discountAmount"; "afterDiscount"; "taxAmount"; "cisAmount";
    "grandTotal" ].

End TotalsSpec.

(** ** Sample data *)

Module Samples.
Local Open Scope float_scope.

Definition material (price : Js.number) : MaterialItem.t :=
  {| MaterialItem.totalPrice := Some price; MaterialItem.isHeading := None |}.

(** One section: one material of 100 and four hours of labour. *)
Definition simpleSection : QuoteSection.t :=
  {| QuoteSection.items := Some [material 100];
     QuoteSection.labourItems := None;
     QuoteSection.labourHours := Some 4;
     QuoteSection.labourRate := None;
     QuoteSection.labourCost := None;
     QuoteSection.subsectionPrice := None |}.

Definition simpleQuote : Quote.t :=
  {| Quote.sections := Some [simpleSection];
     Quote.labourRate := Some 50;
     Quote.markupPercent := Some 0;
     Quote.discountType := None;
     Quote.discountValue := None;
     Quote.taxPercent := Some 20;
     Quote.cisPercent := Some 20;
     Quote.partPaymentEnabled := None;
     Quote.partPaymentType := None;
     Quote.partPaymentValue := None |}.

Definition defaultOptions : CalculationOptions.t :=
  {| CalculationOptions.enableVat := true;
     CalculationOptions.enableCis := false;
     CalculationOptions.showVat := true;
     CalculationOptions.showCis := false;
     CalculationOptions.defaultLabourRate := 65 |}.

Definition defaultDisplayOptions : QuoteDisplayOptions.t :=
  {| QuoteDisplayOptions.showVat := true;
     QuoteDisplayOptions.showCis := true |}.

(** Itemized labour of five hours next to a direct cost of 100. *)
Definition itemizedSection : QuoteSection.t :=
  {| QuoteSection.items := Some [];
     QuoteSection.labourItems :=
       Some [ {| LabourItem.hours := 5; LabourItem.rate := None |} ];
     QuoteSection.labourHours := Some 0;
     QuoteSection.labourRate := None;
     QuoteSection.labourCost := Some 100;
     QuoteSection.subsectionPrice := None |}.

(** A section whose hours field holds [NaN], as an emptied number input
    leaves it. *)
Definition nanHoursSection : QuoteSection.t :=
  {| QuoteSection.items := Some [];
     QuoteSection.labourItems := None;
     QuoteSection.labourHours := Some nan;
     QuoteSection.labourRate := None;
     QuoteSection.labourCost := None;
     QuoteSection.subsectionPrice := None |}.

(** A section priced at 0 by its override. *)
Definition zeroPricedSection : QuoteSection.t :=
  {| QuoteSection.items := Some [material 100];
     QuoteSection.labourItems := None;
     QuoteSection.labourHours := Some 4;
     QuoteSection.labourRate := None;
     QuoteSection.labourCost := None;
     QuoteSection.subsectionPrice := Some 0 |}.

(** The time values of the two days the samples use. *)
Definition Date_new (s : string) : Js.number :=
  if String.eqb s "2026-01-10" then 1768003200000
  else if String.eqb s "2026-01-11" then 1768089600000
  else nan.

Definition toFixed (x : Js.number) (digits : nat) : string := "?".

Definition Number_toString (x : Js.number) : string := "?".

Definition payment (amount : Js.number) : BankTransaction.t :=
  {| BankTransaction.id := "tx-1";
     BankTransaction.transaction_date := "2026-01-10";
     BankTransaction.description := "CARD PAYMENT";
     BankTransaction.amount := amount;
     BankTransaction.balance := None;
     BankTransaction.is_reconciled := false;
     BankTransaction.reconciled_expense_id := None;
     BankTransaction.reconciled_invoice_id := None |}.

Definition receipt (id : string) (amount : Js.number) : Expense.t :=
  {| Expense.id := id;
     Expense.vendor := "Timber Merchant";
     Expense.amount := amount;
     Expense.expense_date := "2026-01-11";
     Expense.is_reconciled := false;
     Expense.category := "materials" |}.

Definition paidInvoice (id : string) (total : Js.number) : Invoice.t :=
  {| Invoice.id := id;
     Invoice.reference_number := 1001;
     Invoice.total := total;
     Invoice.updated_at := "2026-01-11";
     Invoice.status := "paid";
     Invoice.type := "invoice" |}.

(** A ledger with one transaction, two expenses and one paid invoice, the
    transaction linked to the first expense by an earlier reconciliation. *)
Definition ledger : Ledger.db :=
  {| Ledger.bank_transactions :=
       {[ "tx-1" := Ledger.mk_bank_transaction "user-1" (-12000)%Z true None None ]};
     Ledger.expenses :=
       {[ "exp-1" := Ledger.mk_expense 12000%Z true (Some "tx-1");
          "exp-2" := Ledger.mk_expense 4000%Z false None ]};
     Ledger.quotes :=
       {[ "inv-1" := Ledger.mk_quote "invoice" "paid" 50000%Z ]};
     Ledger.reconciliation_links :=
       [ Ledger.mk_link "user-1" "tx-1" (Some "exp-1") None (Some 12000%Z) ] |}.

(** The same ledger with a second transaction. *)
Definition twoTransactions : Ledger.db :=
  Ledger.set_bank_transactions
    (insert "tx-2"
       (Ledger.mk_bank_transaction "user-1" (-4000)%Z false None None))
    ledger.

End Samples.

(** ** The ledger as its callers see it *)

Module LedgerSpec.
Import Ledger.

(** What a caller of the remote procedure is left with: the state the call
    commits, or the state as it was when the call raises. *)
Definition reconcileMulti (p_transaction_id : uuid)
    (p_expense_ids p_invoice_ids : option (list (option uuid))) (s : db) : db :=
  commit s (reconcile_transaction_multi p_transaction_id
              p_expense_ids p_invoice_ids s).

(** The row an expense id is linked by, and the row of an invoice id. *)
Definition expense_link (v_user_id p_transaction_id : uuid)
    (v_expense_id : option uuid) (s : db) : reconciliation_links_row :=
  {| user_id := v_user_id;
     bank_transaction_id := p_transaction_id;
     expense_id := v_expense_id;
     invoice_id := None;
     amount_matched := k ← v_expense_id; ex_amount <$> expenses s !! k |}.

Definition invoice_link (v_user_id p_transaction_id : uuid)
    (v_invoice_id : option uuid) (s : db) : reconciliation_links_row :=
  {| user_id := v_user_id;
     bank_transaction_id := p_transaction_id;
     expense_id := None;
     invoice_id := v_invoice_id;
     amount_matched := k ← v_invoice_id; q_total <$> quotes s !! k |}.

(** All constraints of [reconciliation_links] at once. *)
Definition insertable (l : reconciliation_links_row) (s : db) : bool :=
  expense_or_invoice l
  && negb (existsb (clashes expense_id l) (reconciliation_links s))
  && negb (existsb (clashes invoice_id l) (reconciliation_links s))
  && references (bank_transactions s) (Some (bank_transaction_id l))
  && references (expenses s) (expense_id l)
  && references (quotes s) (invoice_id l).

(** The update of [expenses] at the end of one turn of the expense loop. *)
Definition mark_linked (p_transaction_id : uuid) (v_expense_id : option uuid)
    (t : gmap uuid expenses_row) : gmap uuid expenses_row :=
  match v_expense_id with
  | Some k => alter (mark_expense p_transaction_id) k t
  | None => t
  end.

(** An expense row, if there is one, is already marked for the transaction. *)
Definition marked (p_transaction_id : uuid) (v_expense_id : option uuid)
    (t : gmap uuid expenses_row) : Prop :=
  mark_linked p_transaction_id v_expense_id t = t.

(** Two states the loops of [reconcile_transaction_multi] cannot tell apart:
    the same links and quotes, the same transactions on file, and the same
    expenses with the same amounts. *)
Definition similar (s t : db) : Prop :=
  reconciliation_links s = reconciliation_links t
  /\ quotes s = quotes t
  /\ (forall k, is_Some (bank_transactions s !! k)
                <-> is_Some (bank_transactions t !! k))
  /\ (forall k, ex_amount <$> expenses s !! k = ex_amount <$> expenses t !! k).

End LedgerSpec.

(** ** Relations between documents *)

Module TotalsRelations.

(** Two sections with the same labour: the same itemized labour, hours,
    rate and direct cost, whatever their materials and price override. *)
Definition sameLabour (a b : QuoteSection.t) : Prop :=
  QuoteSection.labourItems a = QuoteSection.labourItems b
  /\ QuoteSection.labourHours a = QuoteSection.labourHours b
  /\ QuoteSection.labourRate a = QuoteSection.labourRate b
  /\ QuoteSection.labourCost a = QuoteSection.labourCost b.

(** The same calculation options with other display flags. *)
Definition with_showFlags (options : CalculationOptions.t)
    (showVat showCis : bool) : CalculationOptions.t :=
  {| CalculationOptions.enableVat := CalculationOptions.enableVat options;
     CalculationOptions.enableCis := CalculationOptions.enableCis options;
     CalculationOptions.showVat := showVat;
     CalculationOptions.showCis := showCis;
     CalculationOptions.defaultLabourRate :=
       CalculationOptions.defaultLabourRate options |}.

End TotalsRelations.

(** ** The rest of the reconciliation page ([ReconciliationPage.tsx]) *)

Module Page.

(** The filter of [loadData] that keeps the paid invoices of [quoteData]. *)
Definition paidInvoices (quoteData : option (list Invoice.t)) : list Invoice.t :=
  List.filter
    (fun q => String.eqb (Invoice.type q) "invoice"
              && String.eqb (Invoice.status q) "paid")
    (quoteData ?? []).

Inductive Filter : Type := all | unreconciled | reconciled.

Definition Filter_eqb (a b : Filter) : bool :=
  match a, b with
  | all, all | unreconciled, unreconciled | reconciled, reconciled => true
  | _, _ => false
  end.

Module Stats.
Record t : Type := mk {
  total : Z;
  reconciled : Z;
  pending : Z;
  suggestedCount : Z
}.
End Stats.

Section Memos.

(** The string built-ins the search calls. *)
Variable toLowerCase : string -> string.
Variable includes : string -> string -> bool.

(** [ToBoolean] on a string: false for the empty string only. *)
Definition nonempty (s : string) : bool :=
  match s with
  | EmptyString => false
  | String _ _ => true
  end.

(** The callback of [transactions.filter] in the [filteredTransactions] memo. *)
Definition shown (filter : Filter) (searchTerm : string)
    (tx : BankTransaction.t) : bool :=
  if Filter_eqb filter unreconciled && BankTransaction.is_reconciled tx
  then false
  else if Filter_eqb filter reconciled
          && negb (BankTransaction.is_reconciled tx)
  then false
  else if nonempty searchTerm
          && negb (includes (toLowerCase (BankTransaction.description tx))
                     (toLowerCase searchTerm))
  then false
  else true.

Definition filteredTransactions (transactions : list BankTransaction.t)
    (filter : Filter) (searchTerm : string) : list BankTransaction.t :=
  List.filter (shown filter searchTerm) transactions.

(** The [stats] memo; an array length is a whole number, held as such. *)
Definition stats (transactions : list BankTransaction.t)
    (suggestions : list SuggestedMatch.t) : Stats.t :=
  let total := Z.of_nat (length transactions) in
  let reconciled :=
    Z.of_nat (length (List.filter BankTransaction.is_reconciled transactions)) in
  let pending := (total - reconciled)%Z in
  let suggestedCount := Z.of_nat (length suggestions) in
  {| Stats.total := total;
     Stats.reconciled := reconciled;
     Stats.pending := pending;
     Stats.suggestedCount := suggestedCount |}.

End Memos.
End Page.

(** ** The summary view and the conditions of a call
    ([20260110_multi_reconciliation.sql]) *)

Module LedgerViews.
Import Ledger.

(** A row of the view [reconciliation_summary].  The columns
    [transaction_date] and [description], which the view passes through from
    [bank_transactions], are left out with the columns of that table. *)
Record reconciliation_summary_row : Type := mk_summary {
  rs_transaction_id : uuid;
  rs_user_id : uuid;
  rs_transaction_amount : decimal;
  rs_is_reconciled : bool;
  rs_total_matched : decimal;
  rs_unmatched_amount : decimal;
  rs_link_count : nat;
  rs_linked_items : option (list (option string))
}.

(** [SUM(c)] over a group, [NULL] values skipped, under [COALESCE(..., 0)]. *)
Definition coalesce_sum (values : list (option decimal)) : decimal :=
  fold_right Z.add 0%Z (omap id values).

(** The [CASE] of [linked_items]. *)
Definition linked_item (rl : reconciliation_links_row) : option string :=
  match expense_id rl, invoice_id rl with
  | Some e, _ => Some ("expense:" ++ e)
  | None, Some i => Some ("invoice:" ++ i)
  | None, None => None
  end.

(** [SELECT * FROM reconciliation_summary WHERE transaction_id = id]: the
    group of the transaction under the [LEFT JOIN], its links taken in the
    order of the table. *)
Definition reconciliation_summary (s : db) (id : uuid)
    : option reconciliation_summary_row :=
  bt ← bank_transactions s !! id;
  let group := links_of id s in
  let total_matched := coalesce_sum (map amount_matched group) in
  Some {| rs_transaction_id := id;
          rs_user_id := bt_user_id bt;
          rs_transaction_amount := bt_amount bt;
          rs_is_reconciled := bt_is_reconciled bt;
          rs_total_matched := total_matched;
          rs_unmatched_amount := (Z.abs (bt_amount bt) - total_matched)%Z;
          rs_link_count := length group;
          rs_linked_items :=
            match group with
            | [] => None
            | _ :: _ => Some (map linked_item group)
            end |}.

(** Every id of an array is not null and is the key of a row of the table. *)
Definition on_file {V : Type} (t : gmap uuid V) (ids : list (option uuid))
    : Prop :=
  Forall (fun v => exists k, v = Some k /\ is_Some (t !! k)) ids.

(** The values a column takes in the links of a transaction. *)
Definition taken (c : reconciliation_links_row -> option uuid)
    (p_transaction_id : uuid) (s : db) : list (option uuid) :=
  map c (links_of p_transaction_id s).

(** The amounts of the expenses, and the totals of the invoices, of an array
    of ids. *)
Definition expense_amounts (s : db) (ids : list (option uuid))
    : list (option decimal) :=
  map (fun v => k ← v; ex_amount <$> expenses s !! k) ids.

Definition invoice_totals (s : db) (ids : list (option uuid))
    : list (option decimal) :=
  map (fun v => k ← v; q_total <$> quotes s !! k) ids.

End LedgerViews.

(** * Facts about JavaScript numbers *)

Module JsFacts.
Import Js.
Local Open Scope float_scope.

Lemma SFeqb_refl_not_nan (x : spec_float) :
  x <> S754_nan -> SFeqb x x = true.
Proof.
  destruct x as [s | s | | s m e]; intros Hx; try congruence.
  - reflexivity.
  - destruct s; reflexivity.
  - unfold SFeqb, SFcompare.
    destruct s; rewrite Z.compare_refl, Pos.compare_cont_refl; reflexivity.
Qed.

Lemma is_nan_true (x : number) : is_nan x = true -> x = nan.
Proof.
  unfold is_nan. rewrite FloatAxioms.eqb_spec. intros H.
  rewrite <- (SF2Prim_Prim2SF x).
  destruct (Prim2SF x) as [s | s | | s m e] eqn:E; try reflexivity;
    rewrite SFeqb_refl_not_nan in H by discriminate; discriminate.
Qed.

Lemma eqb_zero_true (x : number) :
  (x =? 0) = true -> x = 0 \/ x = -0.
Proof.
  rewrite FloatAxioms.eqb_spec. intros H.
  rewrite <- (SF2Prim_Prim2SF x).
  change (Prim2SF 0) with (S754_zero false) in H.
  destruct (Prim2SF x) as [s | s | | s m e]; try discriminate.
  - destruct s; [right | left]; reflexivity.
  - destruct s; discriminate.
  - destruct s; discriminate.
Qed.

(** The falsy numbers are the two zeros and [NaN]. *)
Lemma ToBoolean_false (x : number) :
  ToBoolean x = false -> x = 0 \/ x = -0 \/ x = nan.
Proof.
  unfold ToBoolean. intros H.
  destruct (x =? 0) eqn:Hzero.
  - destruct (eqb_zero_true x Hzero); auto.
  - destruct (is_nan x) eqn:Hnan; [| discriminate].
    right; right. now apply is_nan_true.
Qed.

(** [x || d] is [x] for an ordinary [x], whatever the default. *)
Lemma or_else_ordinary (x : number) :
  ordinary x -> Some x <||> 0 = x.
Proof.
  intros [Hnan Hneg]. unfold or_else.
  destruct (ToBoolean x) eqn:E; [reflexivity |].
  destruct (ToBoolean_false x E) as [-> | [-> | ->]];
    [reflexivity | congruence | discriminate].
Qed.

Lemma or_else_nullish (x : option number) :
  absent_or_ordinary x -> x <||> 0 = x ?? 0.
Proof.
  destruct x as [v |]; simpl; intros H; [| reflexivity].
  now apply or_else_ordinary.
Qed.

(** Dividing a percentage that is no [NaN] by 100 and adding 1 gives the
    same multiplier whether or not [|| 0] came first. *)
Lemma multiplier_or_else (m : number) :
  is_nan m = false -> 1 + (Some m <||> 0) / 100 = 1 + m / 100.
Proof.
  intros Hnan. unfold or_else.
  destruct (ToBoolean m) eqn:E; [reflexivity |].
  destruct (ToBoolean_false m E) as [-> | [-> | ->]];
    [reflexivity | reflexivity | discriminate].
Qed.

(** A number is not both below and above zero. *)
Lemma ltb_zero_exclusive (x : number) :
  (x <? 0) = true -> (0 <? x) = false.
Proof.
  rewrite !FloatAxioms.ltb_spec.
  change (Prim2SF 0) with (S754_zero false).
  destruct (Prim2SF x) as [[|] | [|] | | [|] m e]; cbv; congruence.
Qed.

Lemma eqb_zero_ltb (x : number) :
  (x =? 0) = true -> (x <? 0) = false /\ (0 <? x) = false.
Proof.
  intros H. destruct (eqb_zero_true x H) as [-> | ->]; split; reflexivity.
Qed.

(** The fold of [reduce] pushed through a [map]. *)
Lemma fold_left_sum_map {A : Type} (f : A -> number) (l : list A) (acc : number) :
  fold_left (fun sum x => sum + f x) l acc = fold_left PrimFloat.add (map f l) acc.
Proof.
  revert acc. induction l as [| x l IH]; intros acc; simpl; [reflexivity |].
  apply IH.
Qed.

End JsFacts.

(** * The totals engine *)

Module TotalsFacts.
Import Js QuoteCalculations JsFacts.
Local Open Scope float_scope.

Lemma effectiveRate_chain section quoteLabourRate defaultLabourRate :
  QuoteSection.labourRate section ?? quoteLabourRate ?? defaultLabourRate
  = TotalsSpec.effectiveRate section quoteLabourRate defaultLabourRate.
Proof.
  unfold TotalsSpec.effectiveRate; simpl.
  destruct (QuoteSection.labourRate section), quoteLabourRate; reflexivity.
Qed.

Lemma not_itemized section :
  QuoteSection.labourItems section = None
  \/ QuoteSection.labourItems section = Some [] ->
  and_then (QuoteSection.labourItems section)
    (fun labourItems => (0 <? length labourItems)%nat) = false.
Proof. intros [-> | ->]; reflexivity. Qed.

Lemma heading_filter (l : list MaterialItem.t) :
  List.filter (fun item => not_flag (MaterialItem.isHeading item)) l
  = List.filter
      (fun item => negb (bool_decide (MaterialItem.isHeading item = Some true))) l.
Proof.
  apply List.filter_ext. intros item.
  destruct (MaterialItem.isHeading item) as [[|] |]; reflexivity.
Qed.

Lemma map_price_ordinary (l : list MaterialItem.t) :
  Forall (fun item => absent_or_ordinary (MaterialItem.totalPrice item)) l ->
  map (fun item => MaterialItem.totalPrice item <||> 0) l
  = map (fun item => MaterialItem.totalPrice item ?? 0) l.
Proof.
  induction 1 as [| item l Hitem _ IH]; simpl; [reflexivity |].
  now rewrite IH, or_else_nullish.
Qed.

Lemma Forall_filter_bool {A : Type} (P : A -> Prop) (f : A -> bool) (l : list A) :
  Forall P l -> Forall P (List.filter f l).
Proof.
  induction 1 as [| x l Hx _ IH]; simpl; [constructor |].
  destruct (f x); [constructor |]; assumption.
Qed.

(** C1. For every document and options, [calculateQuoteTotals] returns
    clientSubtotal = sectionsTotal * (1 + markupPercent / 100), where an
    unset markup counts as 0 (and so does any that [||] rejects; for every
    markup that is a number the multiplier is the literal
    1 + markupPercent / 100), afterDiscount = clientSubtotal - discountAmount
    and grandTotal = afterDiscount + taxAmount - cisAmount.  The one-section
    document with a material of 100, four hours at the document rate 50, no
    markup, 20% tax with VAT enabled and shown and CIS disabled has the
    totals 100, 200, 300, 300, 300, 60, 0 and 360. *)
Theorem calculateQuoteTotals_formulas :
  forall (quote : Quote.t) (options : CalculationOptions.t)
         (displayOptions : QuoteDisplayOptions.t),
    let totals := calculateQuoteTotals quote options displayOptions in
    QuoteTotals.clientSubtotal totals
    = QuoteTotals.sectionsTotal totals
      * (1 + (Quote.markupPercent quote <||> 0) / 100)
    /\ (forall m : number,
          Quote.markupPercent quote = Some m -> is_nan m = false ->
          QuoteTotals.clientSubtotal totals
          = QuoteTotals.sectionsTotal totals * (1 + m / 100))
    /\ QuoteTotals.afterDiscount totals
       = QuoteTotals.clientSubtotal totals - QuoteTotals.discountAmount totals
    /\ QuoteTotals.grandTotal totals
       = QuoteTotals.afterDiscount totals + QuoteTotals.taxAmount totals
         - QuoteTotals.cisAmount totals
    /\ calculateQuoteTotals Samples.simpleQuote Samples.defaultOptions
         Samples.defaultDisplayOptions
       = {| QuoteTotals.materialsTotal := 100;
            QuoteTotals.labourTotal := 200;
            QuoteTotals.sectionsTotal := 300;
            QuoteTotals.clientSubtotal := 300;
            QuoteTotals.discountAmount := 0;
            QuoteTotals.afterDiscount := 300;
            QuoteTotals.taxAmount := 60;
            QuoteTotals.cisAmount := 0;
            QuoteTotals.grandTotal := 360 |}.
Proof.
  intros quote options displayOptions totals.
  repeat split.
  - intros m Hm Hnan. subst totals. unfold calculateQuoteTotals; simpl.
    rewrite Hm. now rewrite multiplier_or_else.
Qed.

Lemma calculateQuoteTotals_formulas_witness :
  QuoteTotals.clientSubtotal
    (calculateQuoteTotals Samples.simpleQuote Samples.defaultOptions
       Samples.defaultDisplayOptions)
  = QuoteTotals.sectionsTotal
      (calculateQuoteTotals Samples.simpleQuote Samples.defaultOptions
         Samples.defaultDisplayOptions)
    * (1 + 0 / 100).
Proof.
  exact (proj1 (proj2 (calculateQuoteTotals_formulas Samples.simpleQuote
                         Samples.defaultOptions Samples.defaultDisplayOptions))
           0 eq_refl eq_refl).
Defined.

(** Hours that hold [NaN], with no itemized labour and no direct cost: the
    calculator returns 0, where the product with [labourHours ?? 0] is [NaN]. *)
Lemma nan_hours_count_as_zero :
  calculateSectionLabour Samples.nanHoursSection (Some 50) 65 = 0
  /\ TotalsSpec.sectionLabour Samples.nanHoursSection (Some 50) 65 = nan
  /\ (QuoteSection.labourHours Samples.nanHoursSection ?? 0) * 50 = nan.
Proof. repeat split. Qed.

(** C2 (amended). [calculateSectionLabour] follows strict precedence.  With
    effectiveRate the first non-null of the section rate, the document rate
    and the default rate: non-empty [labourItems] give the sum over the
    items of hours * (item.rate ?? effectiveRate); otherwise a defined
    [labourCost] (0 included) is returned verbatim, ignoring hours; otherwise
    the result is (labourHours || 0) * effectiveRate, that is, hours that are
    unset, zero or [NaN] count as 0, which for every unset or ordinary number
    of hours is (labourHours ?? 0) * effectiveRate.  Itemized labour of five
    hours next to a [labourCost] of 100 at rate 50 gives 250, not 100. *)
Theorem calculateSectionLabour_precedence :
  forall (section : QuoteSection.t) (quoteLabourRate : option number)
         (defaultLabourRate : number),
    let rate :=
      TotalsSpec.effectiveRate section quoteLabourRate defaultLabourRate in
    let labour :=
      calculateSectionLabour section quoteLabourRate defaultLabourRate in
    let no_items :=
      QuoteSection.labourItems section = None
      \/ QuoteSection.labourItems section = Some [] in
    (forall item rest,
        QuoteSection.labourItems section = Some (item :: rest) ->
        labour = TotalsSpec.itemized rate (item :: rest))
    /\ (forall cost : number,
          no_items -> QuoteSection.labourCost section = Some cost ->
          labour = cost)
    /\ (no_items -> QuoteSection.labourCost section = None ->
        labour = (QuoteSection.labourHours section <||> 0) * rate)
    /\ (absent_or_ordinary (QuoteSection.labourHours section) ->
        labour
        = TotalsSpec.sectionLabour section quoteLabourRate defaultLabourRate)
    /\ calculateSectionLabour Samples.itemizedSection (Some 50) 65 = 250.
Proof.
  intros section quoteLabourRate defaultLabourRate rate labour no_items.
  subst rate labour no_items. unfold calculateSectionLabour.
  rewrite effectiveRate_chain.
  set (rate := TotalsSpec.effectiveRate _ _ _).
  repeat split.
  - intros item rest ->. cbn [and_then length Nat.ltb Nat.leb nullish].
    unfold TotalsSpec.itemized, sum.
    apply (fold_left_sum_map
             (fun i => LabourItem.hours i * (LabourItem.rate i ?? rate))).
  - intros cost Hno ->. now rewrite not_itemized.
  - intros Hno ->. now rewrite not_itemized.
  - intros Hhours. unfold TotalsSpec.sectionLabour. fold rate.
    destruct (QuoteSection.labourItems section) as [[| item rest] |];
      cbn [and_then length Nat.ltb Nat.leb nullish].
    + destruct (QuoteSection.labourCost section); [reflexivity |].
      now rewrite or_else_nullish.
    + unfold TotalsSpec.itemized, sum.
      apply (fold_left_sum_map
               (fun i => LabourItem.hours i * (LabourItem.rate i ?? rate))).
    + destruct (QuoteSection.labourCost section); [reflexivity |].
      now rewrite or_else_nullish.
Qed.

Lemma calculateSectionLabour_precedence_witness :
  calculateSectionLabour Samples.simpleSection (Some 50) 65
  = TotalsSpec.sectionLabour Samples.simpleSection (Some 50) 65.
Proof.
  refine (proj1 (proj2 (proj2 (proj2
            (calculateSectionLabour_precedence Samples.simpleSection
               (Some 50) 65)))) _).
  split; [reflexivity | discriminate].
Defined.

(** C6. The materials of a section are the sum of [totalPrice] over the
    items that are no heading, a missing price counting as 0 (so does a
    price that [||] rejects; when every price is unset or an ordinary number
    the sum is the specification's own).  The section price is
    [subsectionPrice] whenever it is defined, 0 included, and
    materials + labour otherwise: a section with materials 100, labour 200
    and a [subsectionPrice] of 0 is priced 0. *)
Theorem section_materials_and_price :
  forall section : QuoteSection.t,
    calculateSectionMaterials section
    = sum (map (fun item => MaterialItem.totalPrice item <||> 0)
             (List.filter
                (fun item =>
                   negb (bool_decide (MaterialItem.isHeading item = Some true)))
                (QuoteSection.items section ?? [])))
    /\ (Forall (fun item => absent_or_ordinary (MaterialItem.totalPrice item))
          (QuoteSection.items section ?? []) ->
        calculateSectionMaterials section = TotalsSpec.sectionMaterials section)
    /\ (forall materials labour : number,
          calculateSectionPrice section materials labour
          = TotalsSpec.sectionPrice section materials labour)
    /\ (forall materials labour price : number,
          QuoteSection.subsectionPrice section = Some price ->
          calculateSectionPrice section materials labour = price)
    /\ (forall materials labour : number,
          QuoteSection.subsectionPrice section = None ->
          calculateSectionPrice section materials labour = materials + labour)
    /\ calculateSectionMaterials Samples.zeroPricedSection = 100
    /\ calculateSectionLabour Samples.zeroPricedSection (Some 50) 65 = 200
    /\ calculateSectionPrice Samples.zeroPricedSection 100 200 = 0.
Proof.
  intros section.
  assert (Hsum :
    calculateSectionMaterials section
    = sum (map (fun item => MaterialItem.totalPrice item <||> 0)
             (List.filter
                (fun item =>
                   negb (bool_decide (MaterialItem.isHeading item = Some true)))
                (QuoteSection.items section ?? [])))).
  { unfold calculateSectionMaterials, sum.
    rewrite heading_filter.
    apply (fold_left_sum_map
             (fun item => MaterialItem.totalPrice item <||> 0)). }
  split; [exact Hsum |].
  split.
  { intros Hprices. rewrite Hsum. unfold TotalsSpec.sectionMaterials.
    f_equal. apply map_price_ordinary. now apply Forall_filter_bool. }
  unfold calculateSectionPrice, TotalsSpec.sectionPrice.
  split; [reflexivity |].
  split; [now intros materials labour price -> |].
  split; [now intros materials labour -> |].
  repeat split.
Qed.

Lemma section_materials_and_price_witness :
  calculateSectionMaterials Samples.simpleSection
  = TotalsSpec.sectionMaterials Samples.simpleSection.
Proof.
  refine (proj1 (proj2
            (section_materials_and_price Samples.simpleSection)) _).
  repeat constructor. discriminate.
Defined.

(** C7. [calculateDiscount] returns 0 whenever the discount value is falsy
    (unset or zero); otherwise subtotal * (value / 100) for the type
    'percentage', and the value itself for any other type, undefined
    included.  calculateDiscount(1000, 'percentage', 10) = 100,
    calculateDiscount(1000, undefined, 50) = 50 and
    calculateDiscount(x, anything, 0) = 0. *)
Theorem calculateDiscount_cases :
  forall (subtotal : number) (discountType : option AmountType)
         (discountValue : option number),
    (not_number discountValue = true ->
     calculateDiscount subtotal discountType discountValue = 0)
    /\ calculateDiscount subtotal discountType None = 0
    /\ calculateDiscount subtotal discountType (Some 0) = 0
    /\ (forall value : number,
          discountValue = Some value -> ToBoolean value = true ->
          calculateDiscount subtotal (Some percentage) discountValue
          = subtotal * (value / 100))
    /\ (forall value : number,
          discountValue = Some value -> ToBoolean value = true ->
          discountType <> Some percentage ->
          calculateDiscount subtotal discountType discountValue = value)
    /\ calculateDiscount 1000 (Some percentage) (Some 10) = 100
    /\ calculateDiscount 1000 None (Some 50) = 50.
Proof.
  intros subtotal discountType discountValue.
  unfold calculateDiscount. repeat split.
  - intros ->. reflexivity.
  - intros value -> Htrue. simpl. now rewrite Htrue.
  - intros value -> Htrue Htype. simpl. rewrite Htrue. simpl.
    destruct discountType as [[|] |]; congruence.
Qed.

Lemma calculateDiscount_cases_witness :
  calculateDiscount 1000 (Some fixed) (Some 150) = 150.
Proof.
  refine (proj1 (proj2 (proj2 (proj2 (proj2
            (calculateDiscount_cases 1000 (Some fixed) (Some 150))))))
            150 eq_refl eq_refl _).
  discriminate.
Defined.

Lemma entries_injective (a b : QuoteTotals.t) :
  QuoteTotals.entries a = QuoteTotals.entries b -> a = b.
Proof.
  destruct a, b. unfold QuoteTotals.entries; simpl.
  intros H. injection H as -> -> -> -> -> -> -> -> ->. reflexivity.
Qed.

(** The totals of the sample document do not have eleven fields. *)
Lemma totals_not_eleven_fields :
  (length (QuoteTotals.entries
             (calculateQuoteTotals Samples.simpleQuote Samples.defaultOptions
                Samples.defaultDisplayOptions)) =? 11)%nat = false.
Proof. reflexivity. Qed.

(** C8 (amended). The entry point is a function of the document, the
    calculation options and the display options, and the totals it returns
    are a flat record of exactly nine numeric fields: materialsTotal,
    labourTotal, sectionsTotal, clientSubtotal, discountAmount,
    afterDiscount, taxAmount, cisAmount and grandTotal.  The part-payment
    amount is not one of them: the totals are the same whatever the
    part-payment settings of the document, and the amount is what
    [calculatePartPayment] makes of a grand total. *)
Theorem totals_nine_fields :
  forall (quote : Quote.t) (options : CalculationOptions.t)
         (displayOptions : QuoteDisplayOptions.t),
    let totals := calculateQuoteTotals quote options displayOptions in
    QuoteTotals.keys totals = TotalsSpec.totals_fields
    /\ length (QuoteTotals.entries totals) = 9%nat
    /\ (forall other : QuoteTotals.t,
          QuoteTotals.entries other = QuoteTotals.entries totals ->
          other = totals)
    /\ (forall enabled type value,
          calculateQuoteTotals
            (Quote.with_partPayment quote enabled type value)
            options displayOptions
          = totals)
    /\ calculatePartPayment (QuoteTotals.grandTotal totals)
         (Some true) (Some percentage) (Some 30)
       = QuoteTotals.grandTotal totals * (30 / 100).
Proof.
  intros quote options displayOptions totals. repeat split.
  intros other Hother. now apply entries_injective.
Qed.

End TotalsFacts.

(** * The suggestion pass *)

Module MatcherFacts.
Import Js Matcher JsFacts.
Local Open Scope float_scope.

Section Pass.
Variable Date_new : string -> number.
Variable toFixed : number -> nat -> string.
Variable Number_toString : number -> string.

#[local] Abbreviation qualifies := (spec_expense_qualifies Date_new).
#[local] Abbreviation suggestions := (suggestionsFor Date_new toFixed Number_toString).

(** The callback of the filter is the rule of the specification. *)
Lemma expenseMatches_spec (t : BankTransaction.t) (e : Expense.t) :
  expenseMatches Date_new
    (abs (BankTransaction.amount t))
    (Date_new (BankTransaction.transaction_date t)) e
  = qualifies t e.
Proof.
  unfold expenseMatches, spec_expense_qualifies, getTime.
  change msPerDay with 86400000.
  destruct (abs (abs (BankTransaction.amount t) - Expense.amount e) <? 0.01),
    (abs (abs (BankTransaction.amount t) - Expense.amount e * 1.2) <? 0.01),
    (abs ((Date_new (BankTransaction.transaction_date t)
           - Date_new (Expense.expense_date e)) / 86400000) <=? 7);
    reflexivity.
Qed.

Lemma filter_first {A : Type} (f : A -> bool) (before after : list A) (x : A) :
  Forall (fun y => f y = false) before -> f x = true ->
  List.filter f (before ++ x :: after) = x :: List.filter f after.
Proof.
  induction 1 as [| y before Hy _ IH]; intros Hx; simpl.
  - now rewrite Hx.
  - rewrite Hy. now apply IH.
Qed.

Lemma filter_none {A : Type} (f : A -> bool) (l : list A) :
  Forall (fun y => f y = false) l -> List.filter f l = [].
Proof.
  induction 1 as [| y l Hy _ IH]; simpl; [reflexivity |].
  now rewrite Hy.
Qed.

Lemma outgoing_at_most_one pool (tx : BankTransaction.t) :
  (length (outgoingSuggestions Date_new toFixed pool tx) <= 1)%nat.
Proof.
  unfold outgoingSuggestions.
  destruct (BankTransaction.amount tx <? 0); [| simpl; lia].
  destruct (List.filter _ pool); simpl; lia.
Qed.

Lemma incoming_at_most_one invoices (tx : BankTransaction.t) :
  (length (incomingSuggestions Date_new toFixed Number_toString invoices tx)
   <= 1)%nat.
Proof.
  unfold incomingSuggestions.
  destruct (0 <? BankTransaction.amount tx); [| simpl; lia].
  destruct (List.filter _ invoices); simpl; lia.
Qed.

Lemma suggestions_at_most_one pool invoices (tx : BankTransaction.t) :
  (length (suggestions pool invoices tx) <= 1)%nat.
Proof.
  unfold suggestionsFor. rewrite length_app.
  pose proof (outgoing_at_most_one pool tx) as Hout.
  pose proof (incoming_at_most_one invoices tx) as Hin.
  destruct (BankTransaction.amount tx <? 0) eqn:Hneg.
  - unfold incomingSuggestions.
    rewrite (ltb_zero_exclusive _ Hneg). simpl. lia.
  - unfold outgoingSuggestions. rewrite Hneg. simpl. lia.
Qed.

Lemma incoming_of_outgoing invoices (tx : BankTransaction.t) :
  (BankTransaction.amount tx <? 0) = true ->
  incomingSuggestions Date_new toFixed Number_toString invoices tx = [].
Proof.
  intros Hneg. unfold incomingSuggestions.
  now rewrite (ltb_zero_exclusive _ Hneg).
Qed.

(** C3. For an unreconciled outgoing transaction [t], an unreconciled
    expense qualifies exactly when the dates are at most seven days apart
    and the magnitude of [t] is within 0.01 of the expense amount or of
    the amount times 1.2; the suggestion names the first qualifying
    expense in the order of the expense list; no transaction yields more
    than one suggestion; with no qualifying expense there is none; and
    what [t] yields is part of what the pass shows. *)
Theorem outgoing_first_match :
  forall (previous : list SuggestedMatch.t)
         (transactions : list BankTransaction.t)
         (expenses : list Expense.t) (invoices : list Invoice.t)
         (t : BankTransaction.t),
    In t transactions ->
    BankTransaction.is_reconciled t = false ->
    (BankTransaction.amount t <? 0) = true ->
    let pool :=
      List.filter (fun exp => negb (Expense.is_reconciled exp)) expenses in
    (forall e : Expense.t,
        expenseMatches Date_new (abs (BankTransaction.amount t))
          (Date_new (BankTransaction.transaction_date t)) e
        = qualifies t e)
    /\ (forall before e after,
          pool = (before ++ e :: after)%list ->
          Forall (fun x => qualifies t x = false) before ->
          qualifies t e = true ->
          exists m : SuggestedMatch.t,
            suggestions pool invoices t = [m]
            /\ SuggestedMatch.transaction m = t
            /\ SuggestedMatch.expense m = Some e
            /\ SuggestedMatch.invoice m = None)
    /\ (Forall (fun x => qualifies t x = false) pool ->
        suggestions pool invoices t = [])
    /\ (forall tx : BankTransaction.t,
          (length (suggestions pool invoices tx) <= 1)%nat)
    /\ (forall m : SuggestedMatch.t,
          In m (suggestions pool invoices t) ->
          In m (autoMatch Date_new toFixed Number_toString
                  previous transactions expenses invoices)).
Proof.
  intros previous transactions expenses invoices t Hin Hunrec Hneg pool.
  split; [apply expenseMatches_spec |].
  split; [| split; [| split]].
  - intros before e after Hpool Hbefore He.
    unfold suggestionsFor.
    rewrite (incoming_of_outgoing _ _ Hneg), app_nil_r.
    unfold outgoingSuggestions. rewrite Hneg.
    rewrite (List.filter_ext _ _ (expenseMatches_spec t)).
    rewrite Hpool, (filter_first _ _ _ _ Hbefore He).
    eexists. repeat split.
  - intros Hnone.
    unfold suggestionsFor.
    rewrite (incoming_of_outgoing _ _ Hneg), app_nil_r.
    unfold outgoingSuggestions. rewrite Hneg.
    rewrite (List.filter_ext _ _ (expenseMatches_spec t)).
    now rewrite (filter_none _ _ Hnone).
  - intros tx. apply suggestions_at_most_one.
  - intros m Hm. unfold autoMatch.
    destruct transactions as [| t0 rest]; [contradiction |].
    cbn [length Nat.eqb].
    apply in_flat_map. exists t. split; [| exact Hm].
    apply List.filter_In. split; [exact Hin |].
    now rewrite Hunrec.
Qed.

(** C10. A transaction whose amount is zero passes neither [amount < 0]
    nor [amount > 0]: it yields no suggestion, whatever the expenses and
    invoices, and a pass over it alone shows none. *)
Theorem zero_amount_no_suggestion :
  forall (previous : list SuggestedMatch.t)
         (expenses : list Expense.t) (invoices : list Invoice.t)
         (tx : BankTransaction.t),
    (BankTransaction.amount tx =? 0) = true ->
    outgoingSuggestions Date_new toFixed expenses tx = []
    /\ incomingSuggestions Date_new toFixed Number_toString invoices tx = []
    /\ suggestions expenses invoices tx = []
    /\ autoMatch Date_new toFixed Number_toString previous [tx]
         expenses invoices = [].
Proof.
  intros previous expenses invoices tx Hzero.
  destruct (eqb_zero_ltb _ Hzero) as [Hneg Hpos].
  assert (Hnone : forall pool, suggestions pool invoices tx = []).
  { intros pool. unfold suggestionsFor, outgoingSuggestions,
      incomingSuggestions.
    now rewrite Hneg, Hpos. }
  repeat split.
  - unfold outgoingSuggestions. now rewrite Hneg.
  - unfold incomingSuggestions. now rewrite Hpos.
  - apply Hnone.
  - unfold autoMatch. cbn [length Nat.eqb].
    destruct (List.filter _ [tx]) as [| tx' l] eqn:Hf; [reflexivity |].
    simpl in Hf. destruct (negb (BankTransaction.is_reconciled tx));
      inversion Hf; subst.
    simpl. rewrite Hnone. reflexivity.
Qed.

End Pass.

Lemma outgoing_first_match_witness :
  exists m : SuggestedMatch.t,
    suggestionsFor Samples.Date_new Samples.toFixed Samples.Number_toString
      [Samples.receipt "exp-0" 75; Samples.receipt "exp-1" 100;
       Samples.receipt "exp-2" 120]
      [] (Samples.payment (-120))
    = [m]
    /\ SuggestedMatch.transaction m = Samples.payment (-120)
    /\ SuggestedMatch.expense m = Some (Samples.receipt "exp-1" 100)
    /\ SuggestedMatch.invoice m = None.
Proof.
  refine (proj1 (proj2
            (outgoing_first_match Samples.Date_new Samples.toFixed
               Samples.Number_toString [] [Samples.payment (-120)]
               [Samples.receipt "exp-0" 75; Samples.receipt "exp-1" 100;
                Samples.receipt "exp-2" 120]
               [] (Samples.payment (-120)) _ _ _))
            [Samples.receipt "exp-0" 75] (Samples.receipt "exp-1" 100)
            [Samples.receipt "exp-2" 120] _ _ _).
  - left. reflexivity.
  - reflexivity.
  - reflexivity.
  - reflexivity.
  - repeat constructor.
  - reflexivity.
Defined.

Lemma zero_amount_no_suggestion_witness :
  suggestionsFor Samples.Date_new Samples.toFixed Samples.Number_toString
    [Samples.receipt "exp-1" 0] [] (Samples.payment 0)
  = [].
Proof.
  exact (proj1 (proj2 (proj2
           (zero_amount_no_suggestion Samples.Date_new Samples.toFixed
              Samples.Number_toString [] [Samples.receipt "exp-1" 0] []
              (Samples.payment 0) eq_refl)))).
Defined.

End MatcherFacts.

(** * The settlement ledger *)

Module LedgerFacts.
Import Ledger LedgerSpec.

Lemma insert_insertable (l : reconciliation_links_row) (s : db) :
  insertable l s = true ->
  insert_reconciliation_link l s
  = Ok (set_reconciliation_links (fun links => links ++ [l])%list s).
Proof.
  unfold insertable, insert_reconciliation_link. intros H.
  repeat (apply andb_prop in H; destruct H as [H ?]).
  repeat match goal with Hb : _ = true |- _ => rewrite Hb; clear Hb end.
  reflexivity.
Qed.

Lemma insert_Ok (l : reconciliation_links_row) (s s' : db) :
  insert_reconciliation_link l s = Ok s' ->
  insertable l s = true
  /\ s' = set_reconciliation_links (fun links => links ++ [l])%list s.
Proof.
  unfold insertable, insert_reconciliation_link.
  repeat match goal with
         | |- context [guard ?b ?e] => destruct b; simpl; [| discriminate]
         end.
  intros [= <-]. split; reflexivity.
Qed.

Lemma references_similar {V : Type} (t t' : gmap uuid V) (c : option uuid) :
  (forall k, is_Some (t !! k) <-> is_Some (t' !! k)) ->
  references t c = references t' c.
Proof.
  intros H. destruct c as [k |]; simpl; [| reflexivity].
  apply bool_decide_ext, H.
Qed.

Lemma similar_expenses_on_file (s t : db) :
  similar s t ->
  forall k, is_Some (expenses s !! k) <-> is_Some (expenses t !! k).
Proof.
  intros (_ & _ & _ & H) k. rewrite <- !fmap_is_Some with (f := ex_amount).
  now rewrite H.
Qed.

Lemma insertable_similar (l : reconciliation_links_row) (s t : db) :
  similar s t -> insertable l s = insertable l t.
Proof.
  intros Hsim. pose proof (similar_expenses_on_file s t Hsim) as Hex.
  destruct Hsim as (Hlinks & Hquotes & Hbt & _).
  unfold insertable. rewrite Hlinks, Hquotes.
  now rewrite (references_similar _ _ _ Hbt), (references_similar _ _ _ Hex).
Qed.

Lemma expense_link_similar u tx e (s t : db) :
  similar s t -> expense_link u tx e s = expense_link u tx e t.
Proof.
  intros (_ & _ & _ & H). unfold expense_link.
  destruct e as [k |]; simpl; [now rewrite H | reflexivity].
Qed.

Lemma invoice_link_similar u tx i (s t : db) :
  similar s t -> invoice_link u tx i s = invoice_link u tx i t.
Proof. intros (_ & H & _). unfold invoice_link. now rewrite H. Qed.

(** One turn of the expense loop, when it does not raise. *)
Lemma link_expense_Ok u tx e (s s' : db) :
  link_expense u tx e s = Ok s' ->
  insertable (expense_link u tx e s) s = true
  /\ s' = set_expenses (mark_linked tx e)
            (set_reconciliation_links
               (fun links => links ++ [expense_link u tx e s])%list s).
Proof.
  unfold link_expense. fold (expense_link u tx e s).
  destruct (insert_reconciliation_link _ s) as [s1 | err] eqn:Hins;
    simpl; [| discriminate].
  apply insert_Ok in Hins as [Hok ->]. intros [= <-]. split; [exact Hok |].
  reflexivity.
Qed.

Lemma link_expense_insertable u tx e (s : db) :
  insertable (expense_link u tx e s) s = true ->
  link_expense u tx e s
  = Ok (set_expenses (mark_linked tx e)
          (set_reconciliation_links
             (fun links => links ++ [expense_link u tx e s])%list s)).
Proof.
  intros H. unfold link_expense. fold (expense_link u tx e s).
  rewrite (insert_insertable _ _ H). reflexivity.
Qed.

(** One turn of the invoice loop, when it does not raise. *)
Lemma link_invoice_Ok u tx i (s s' : db) :
  link_invoice u tx i s = Ok s' ->
  insertable (invoice_link u tx i s) s = true
  /\ s' = set_reconciliation_links
            (fun links => links ++ [invoice_link u tx i s])%list s.
Proof. unfold link_invoice. apply insert_Ok. Qed.

Lemma mark_expense_amount tx e (t : gmap uuid expenses_row) k :
  ex_amount <$> mark_linked tx e t !! k = ex_amount <$> t !! k.
Proof.
  destruct e as [j |]; simpl; [| reflexivity].
  rewrite lookup_alter. case_decide; [subst |]; [| reflexivity].
  now destruct (t !! k).
Qed.

Lemma marked_after tx e (t : gmap uuid expenses_row) :
  marked tx e (mark_linked tx e t).
Proof.
  unfold marked. destruct e as [k |]; simpl; [| reflexivity].
  apply map_eq. intros j. destruct (decide (k = j)) as [-> | Hne].
  - rewrite !lookup_alter_eq. now destruct (t !! j).
  - now rewrite !lookup_alter_ne.
Qed.

Lemma marked_preserved tx e e' (t : gmap uuid expenses_row) :
  marked tx e t -> marked tx e (mark_linked tx e' t).
Proof.
  unfold marked. destruct e as [k |], e' as [k' |]; simpl; auto.
  intros H. apply map_eq. intros j.
  apply (f_equal (fun m => m !! j)) in H.
  destruct (decide (k = j)) as [-> | Hne].
  - rewrite lookup_alter_eq in *.
    destruct (decide (k' = j)) as [-> | Hne'].
    + rewrite !lookup_alter_eq. now destruct (t !! j).
    + rewrite !lookup_alter_ne by done. exact H.
  - now rewrite lookup_alter_ne.
Qed.

Lemma set_links_const (links : list reconciliation_links_row) (t : db) :
  reconciliation_links t = links ->
  set_reconciliation_links (fun _ => links) t = t.
Proof. destruct t; simpl. intros ->. reflexivity. Qed.

Lemma filter_other_none tx (L : list reconciliation_links_row) :
  Forall (fun l => bank_transaction_id l = tx) L ->
  filter (fun l => bank_transaction_id l <> tx) L = [].
Proof.
  induction 1 as [| l L Hl _ IH]; [reflexivity |].
  rewrite filter_cons_False by (intros Hne; apply Hne, Hl). exact IH.
Qed.

Lemma filter_this_all tx (L : list reconciliation_links_row) :
  Forall (fun l => bank_transaction_id l = tx) L ->
  filter (fun l => bank_transaction_id l = tx) L = L.
Proof.
  induction 1 as [| l L Hl _ IH]; [reflexivity |].
  rewrite filter_cons_True by exact Hl. now rewrite IH.
Qed.

Lemma filter_this_of_other tx (l : list reconciliation_links_row) :
  filter (fun l => bank_transaction_id l = tx)
    (filter (fun l => bank_transaction_id l <> tx) l) = [].
Proof.
  induction l as [| x l IH]; [reflexivity |].
  rewrite (filter_cons (fun l => bank_transaction_id l <> tx)).
  case_decide as Hx; [| exact IH].
  rewrite filter_cons_False by (intros Heq; apply Hx, Heq). exact IH.
Qed.

(** What the expense loop leaves untouched, and what it adds. *)
Lemma expense_loop_frame u tx (ids : list (option uuid)) :
  forall s s' : db,
    foreach (link_expense u tx) ids s = Ok s' ->
    bank_transactions s' = bank_transactions s
    /\ quotes s' = quotes s
    /\ (exists L,
          reconciliation_links s' = (reconciliation_links s ++ L)%list
          /\ length L = length ids
          /\ Forall (fun l => bank_transaction_id l = tx) L)
    /\ (forall k, ex_amount <$> expenses s' !! k = ex_amount <$> expenses s !! k)
    /\ (forall e, marked tx e (expenses s) -> marked tx e (expenses s'))
    /\ Forall (fun e => marked tx e (expenses s')) ids.
Proof.
  induction ids as [| e ids IH]; intros s s' Hrun; simpl in Hrun.
  - injection Hrun as <-. repeat split; auto.
    exists []. now rewrite app_nil_r.
  - destruct (link_expense u tx e s) as [s1 | err] eqn:Hstep;
      simpl in Hrun; [| discriminate].
    apply link_expense_Ok in Hstep as [_ ->].
    destruct (IH _ _ Hrun) as (Hbt & Hq & (L & HL & Hlen & Htx) & Ham & Hkeep & Hall).
    simpl in *. repeat split.
    + exact Hbt.
    + exact Hq.
    + exists (expense_link u tx e s :: L). rewrite HL, <- app_assoc. simpl.
      repeat split; [now rewrite Hlen |]. constructor; [reflexivity | exact Htx].
    + intros k. rewrite Ham. apply mark_expense_amount.
    + intros e' He'. apply Hkeep. now apply marked_preserved.
    + constructor; [| exact Hall]. apply Hkeep, marked_after.
Qed.

(** What the invoice loop leaves untouched, and what it adds. *)
Lemma invoice_loop_frame u tx (ids : list (option uuid)) :
  forall s s' : db,
    foreach (link_invoice u tx) ids s = Ok s' ->
    bank_transactions s' = bank_transactions s
    /\ quotes s' = quotes s
    /\ expenses s' = expenses s
    /\ (exists L,
          reconciliation_links s' = (reconciliation_links s ++ L)%list
          /\ length L = length ids
          /\ Forall (fun l => bank_transaction_id l = tx) L).
Proof.
  induction ids as [| i ids IH]; intros s s' Hrun; simpl in Hrun.
  - injection Hrun as <-. repeat split.
    exists []. now rewrite app_nil_r.
  - destruct (link_invoice u tx i s) as [s1 | err] eqn:Hstep;
      simpl in Hrun; [| discriminate].
    apply link_invoice_Ok in Hstep as [_ ->].
    destruct (IH _ _ Hrun) as (Hbt & Hq & Hex & (L & HL & Hlen & Htx)).
    simpl in *. repeat split; try assumption.
    exists (invoice_link u tx i s :: L). rewrite HL, <- app_assoc. simpl.
    repeat split; [now rewrite Hlen |]. constructor; [reflexivity | exact Htx].
Qed.

(** The expense loop run again, from a state that is similar and whose
    expenses are marked already, adds the same links and changes nothing else. *)
Lemma expense_loop_again u tx (ids : list (option uuid)) :
  forall s s' t : db,
    foreach (link_expense u tx) ids s = Ok s' ->
    similar s t ->
    Forall (fun e => marked tx e (expenses t)) ids ->
    foreach (link_expense u tx) ids t
    = Ok (set_reconciliation_links (fun _ => reconciliation_links s') t).
Proof.
  induction ids as [| e ids IH]; intros s s' t Hrun Hsim Hmarked; simpl in *.
  - injection Hrun as <-. f_equal. symmetry. apply set_links_const.
    symmetry. apply Hsim.
  - destruct (link_expense u tx e s) as [s1 | err] eqn:Hstep;
      simpl in Hrun; [| discriminate].
    apply link_expense_Ok in Hstep as [Hok ->].
    inversion Hmarked as [| ? ? He Hrest]; subst.
    rewrite (expense_link_similar u tx e s t Hsim) in *.
    rewrite (insertable_similar _ s t Hsim) in Hok.
    rewrite (link_expense_insertable u tx e t Hok). simpl.
    set (t1 := set_expenses _ _).
    assert (Ht1 : t1 = set_reconciliation_links
                         (fun links => links ++ [expense_link u tx e t])%list t).
    { subst t1. destruct t; unfold set_expenses, set_reconciliation_links;
        simpl in *. now rewrite He. }
    rewrite (IH _ s' t1 Hrun).
    + rewrite Ht1. reflexivity.
    + rewrite Ht1. destruct Hsim as (Hl & Hq & Hbt & Ham).
      split; [| split; [| split]]; simpl; try assumption.
      * now rewrite Hl.
      * intros k. rewrite mark_expense_amount. apply Ham.
    + rewrite Ht1. exact Hrest.
Qed.

(** The same for the invoice loop. *)
Lemma invoice_loop_again u tx (ids : list (option uuid)) :
  forall s s' t : db,
    foreach (link_invoice u tx) ids s = Ok s' ->
    similar s t ->
    foreach (link_invoice u tx) ids t
    = Ok (set_reconciliation_links (fun _ => reconciliation_links s') t).
Proof.
  induction ids as [| i ids IH]; intros s s' t Hrun Hsim; simpl in *.
  - injection Hrun as <-. f_equal. symmetry. apply set_links_const.
    symmetry. apply Hsim.
  - destruct (link_invoice u tx i s) as [s1 | err] eqn:Hstep;
      simpl in Hrun; [| discriminate].
    apply link_invoice_Ok in Hstep as [Hok ->].
    rewrite (invoice_link_similar u tx i s t Hsim) in *.
    rewrite (insertable_similar _ s t Hsim) in Hok.
    unfold link_invoice at 1. fold (invoice_link u tx i t).
    rewrite (insert_insertable _ _ Hok). simpl.
    rewrite (IH _ s' _ Hrun); [reflexivity |].
    destruct Hsim as (Hl & Hq & Hbt & Ham).
    split; [| split; [| split]]; simpl; try assumption. now rewrite Hl.
Qed.

Lemma reconcile_unfold tx exps invs (s : db) :
  reconcile_transaction_multi tx exps invs s
  = match bt_user_id <$> bank_transactions s !! tx with
    | None => Raise (raise_exception "Transaction not found")
    | Some u =>
        bind (foreach (link_expense u tx) (default [] exps)
                (set_reconciliation_links
                   (filter (fun l => bank_transaction_id l <> tx)) s))
          (fun s1 =>
             bind (foreach (link_invoice u tx) (default [] invs) s1)
               (fun s2 =>
                  Ok (set_bank_transactions (alter mark_transaction tx) s2)))
    end.
Proof.
  unfold reconcile_transaction_multi.
  destruct (bt_user_id <$> bank_transactions s !! tx); [| reflexivity].
  destruct exps as [exps |]; simpl.
  - destruct (foreach _ exps _); simpl; [| reflexivity].
    destruct invs; reflexivity.
  - destruct invs; reflexivity.
Qed.

(** A call that went through, taken apart. *)
Lemma reconcile_Ok tx exps invs (s s' : db) :
  reconcile_transaction_multi tx exps invs s = Ok s' ->
  exists (bt : bank_transactions_row) (s1 s2 : db),
    bank_transactions s !! tx = Some bt
    /\ foreach (link_expense (bt_user_id bt) tx) (default [] exps)
         (set_reconciliation_links
            (filter (fun l => bank_transaction_id l <> tx)) s) = Ok s1
    /\ foreach (link_invoice (bt_user_id bt) tx) (default [] invs) s1 = Ok s2
    /\ s' = set_bank_transactions (alter mark_transaction tx) s2.
Proof.
  rewrite reconcile_unfold.
  destruct (bank_transactions s !! tx) as [bt |] eqn:Hbt; simpl; [| discriminate].
  destruct (foreach (link_expense _ _) _ _) as [s1 | ?] eqn:HE;
    simpl; [| discriminate].
  destruct (foreach (link_invoice _ _) _ _) as [s2 | ?] eqn:HI;
    simpl; [| discriminate].
  intros [= <-]. now exists bt, s1, s2.
Qed.

Lemma mark_transaction_twice tx (t : gmap uuid bank_transactions_row) :
  alter mark_transaction tx (alter mark_transaction tx t)
  = alter mark_transaction tx t.
Proof.
  apply map_eq. intros j. destruct (decide (tx = j)) as [-> | Hne].
  - rewrite !lookup_alter_eq. now destruct (t !! j).
  - now rewrite !lookup_alter_ne.
Qed.

(** The links of the transaction after a call: one for each id passed. *)
Lemma reconcile_links tx exps invs (s s' : db) :
  reconcile_transaction_multi tx exps invs s = Ok s' ->
  exists L,
    reconciliation_links s'
    = (filter (fun l => bank_transaction_id l <> tx) (reconciliation_links s)
       ++ L)%list
    /\ length L = (length (default [] exps) + length (default [] invs))%nat
    /\ Forall (fun l => bank_transaction_id l = tx) L.
Proof.
  intros Hrun.
  destruct (reconcile_Ok _ _ _ _ _ Hrun) as (bt & s1 & s2 & Hbt & HE & HI & ->).
  destruct (expense_loop_frame _ _ _ _ _ HE)
    as (_ & _ & (LE & HLE & HlenE & HtxE) & _).
  destruct (invoice_loop_frame _ _ _ _ _ HI)
    as (_ & _ & _ & (LI & HLI & HlenI & HtxI)).
  exists (LE ++ LI)%list. simpl in *. rewrite HLI, HLE, <- app_assoc.
  repeat split.
  - rewrite length_app. now rewrite HlenE, HlenI.
  - apply Forall_app. now split.
Qed.

(** A call that went through goes through again, to the same state. *)
Lemma reconcile_again tx exps invs (s s' : db) :
  reconcile_transaction_multi tx exps invs s = Ok s' ->
  reconcile_transaction_multi tx exps invs s' = Ok s'.
Proof.
  intros Hrun.
  destruct (reconcile_Ok _ _ _ _ _ Hrun) as (bt & s1 & s2 & Hbt & HE & HI & ->).
  destruct (expense_loop_frame _ _ _ _ _ HE)
    as (HbtE & HqE & (LE & HLE & _ & HtxE) & HamE & _ & HmarkedE).
  destruct (invoice_loop_frame _ _ _ _ _ HI)
    as (HbtI & HqI & HexI & (LI & HLI & _ & HtxI)).
  simpl in HbtE, HqE, HLE, HamE.
  rewrite reconcile_unfold. simpl.
  rewrite lookup_alter_eq, HbtI, HbtE, Hbt. simpl.
  set (t0 := set_reconciliation_links _ _).
  assert (Hsim0 :
    similar
      (set_reconciliation_links
         (filter (fun l => bank_transaction_id l <> tx)) s) t0).
  { subst t0. split; [| split; [| split]]; simpl.
    - rewrite HLI, HLE, !filter_app.
      rewrite (filter_other_none _ _ HtxE), (filter_other_none _ _ HtxI).
      rewrite !app_nil_r. symmetry. now apply list_filter_filter_l.
    - now rewrite HqI, HqE.
    - intros k. rewrite HbtI, HbtE. symmetry. apply lookup_alter_is_Some.
    - intros k. now rewrite HexI, HamE. }
  assert (Hmarked0 :
    Forall (fun e => marked tx e (expenses t0)) (default [] exps)).
  { subst t0. simpl. now rewrite HexI. }
  rewrite (expense_loop_again _ _ _ _ _ _ HE Hsim0 Hmarked0). simpl.
  set (t1 := set_reconciliation_links _ t0).
  assert (Hsim1 : similar s1 t1).
  { subst t1 t0. split; [| split; [| split]]; simpl.
    - reflexivity.
    - now rewrite HqI.
    - intros k. rewrite HbtI. symmetry. apply lookup_alter_is_Some.
    - intros k. now rewrite HexI. }
  rewrite (invoice_loop_again _ _ _ _ _ _ HI Hsim1). simpl.
  f_equal. subst t1 t0.
  unfold set_bank_transactions, set_reconciliation_links; simpl.
  now rewrite mark_transaction_twice.
Qed.

Lemma links_of_after tx exps invs (s s' : db) :
  reconcile_transaction_multi tx exps invs s = Ok s' ->
  length (links_of tx s')
  = (length (default [] exps) + length (default [] invs))%nat.
Proof.
  intros Hrun.
  destruct (reconcile_links _ _ _ _ _ Hrun) as (L & HL & Hlen & Htx).
  unfold links_of. rewrite HL, filter_app, filter_this_of_other.
  simpl. now rewrite (filter_this_all _ _ Htx).
Qed.

Lemma flag_after tx exps invs (s s' : db) :
  reconcile_transaction_multi tx exps invs s = Ok s' ->
  transaction_flag tx s' = Some true.
Proof.
  intros Hrun.
  destruct (reconcile_Ok _ _ _ _ _ Hrun) as (bt & s1 & s2 & Hbt & HE & HI & ->).
  destruct (expense_loop_frame _ _ _ _ _ HE) as (HbtE & _).
  destruct (invoice_loop_frame _ _ _ _ _ HI) as (HbtI & _).
  unfold transaction_flag. simpl in *.
  now rewrite lookup_alter_eq, HbtI, HbtE, Hbt.
Qed.

Lemma no_clash_after_delete (c : reconciliation_links_row -> option uuid)
    (l : reconciliation_links_row) (links : list reconciliation_links_row) :
  existsb (clashes c l)
    (filter (fun l' => bank_transaction_id l' <> bank_transaction_id l) links)
  = false.
Proof.
  induction links as [| x links IH]; [reflexivity |].
  rewrite filter_cons. case_decide as Hx; [| exact IH].
  simpl. rewrite IH, orb_false_r. unfold clashes.
  rewrite bool_decide_eq_false_2; [reflexivity |]. congruence.
Qed.

(** C4. [reconcile_transaction_multi] is idempotent.  What a caller is left
    with after two calls in succession with the same transaction and the
    same lists is what one call leaves: the same links with the same matched
    amounts, the same expense rows and the same flags.  A call that went
    through goes through again, having deleted the links the first one wrote
    before it writes them anew; a call that raised has changed nothing. *)
Theorem reconcile_transaction_multi_idempotent :
  forall (p_transaction_id : uuid)
         (p_expense_ids p_invoice_ids : option (list (option uuid)))
         (s : db),
    reconcileMulti p_transaction_id p_expense_ids p_invoice_ids
      (reconcileMulti p_transaction_id p_expense_ids p_invoice_ids s)
    = reconcileMulti p_transaction_id p_expense_ids p_invoice_ids s
    /\ (forall s' : db,
          reconcile_transaction_multi p_transaction_id
            p_expense_ids p_invoice_ids s = Ok s' ->
          reconcile_transaction_multi p_transaction_id
            p_expense_ids p_invoice_ids s' = Ok s').
Proof.
  intros tx exps invs s. split; [| apply reconcile_again].
  unfold reconcileMulti.
  destruct (reconcile_transaction_multi tx exps invs s) as [s' | err] eqn:Hrun;
    simpl.
  - now rewrite (reconcile_again _ _ _ _ _ Hrun).
  - now rewrite Hrun.
Qed.

Lemma reconcile_transaction_multi_idempotent_witness :
  reconcile_transaction_multi "tx-1" (Some [Some "exp-2"]) (Some [Some "inv-1"])
    (reconcileMulti "tx-1" (Some [Some "exp-2"]) (Some [Some "inv-1"])
       Samples.ledger)
  = Ok (reconcileMulti "tx-1" (Some [Some "exp-2"]) (Some [Some "inv-1"])
          Samples.ledger).
Proof.
  apply (proj2 (reconcile_transaction_multi_idempotent "tx-1"
                  (Some [Some "exp-2"]) (Some [Some "inv-1"]) Samples.ledger)).
  vm_compute. reflexivity.
Defined.

(** A call with two empty lists goes through, deletes the link the
    transaction had, and leaves the transaction flagged with no link. *)
Lemma flag_set_without_links :
  reconcile_transaction_multi "tx-1" (Some []) (Some []) Samples.ledger
  = Ok (reconcileMulti "tx-1" (Some []) (Some []) Samples.ledger)
  /\ transaction_flag "tx-1"
       (reconcileMulti "tx-1" (Some []) (Some []) Samples.ledger)
     = Some true
  /\ links_of "tx-1"
       (reconcileMulti "tx-1" (Some []) (Some []) Samples.ledger)
     = [].
Proof. vm_compute. repeat split. Qed.

(** C5 (amended). After every successful [reconcile_transaction_multi] call
    the transaction's [is_reconciled] flag is true, whatever the lists; the
    transaction then has one link for each id passed, so it has a link
    exactly when the two lists are not both empty, and for every such
    combination the flag agrees with the existence of a link. *)
Theorem reconciled_flag_after_call :
  forall (p_transaction_id : uuid)
         (p_expense_ids p_invoice_ids : option (list (option uuid)))
         (s s' : db),
    reconcile_transaction_multi p_transaction_id p_expense_ids p_invoice_ids s
    = Ok s' ->
    transaction_flag p_transaction_id s' = Some true
    /\ length (links_of p_transaction_id s')
       = (length (default [] p_expense_ids)
          + length (default [] p_invoice_ids))%nat
    /\ (links_of p_transaction_id s' = []
        <-> default [] p_expense_ids = [] /\ default [] p_invoice_ids = [])
    /\ (default [] p_expense_ids <> [] \/ default [] p_invoice_ids <> [] ->
        (transaction_flag p_transaction_id s' = Some true
         <-> links_of p_transaction_id s' <> [])).
Proof.
  intros tx exps invs s s' Hrun.
  pose proof (flag_after _ _ _ _ _ Hrun) as Hflag.
  pose proof (links_of_after _ _ _ _ _ Hrun) as Hlen.
  assert (Hnone : links_of tx s' = []
                  <-> default [] exps = [] /\ default [] invs = []).
  { rewrite <- !length_zero_iff_nil. lia. }
  split; [exact Hflag |]. split; [exact Hlen |]. split; [exact Hnone |].
  intros Hsome. split; [| intros _; exact Hflag].
  intros _ Hnil. apply Hnone in Hnil as [He Hi]. destruct Hsome; contradiction.
Qed.

Lemma reconciled_flag_after_call_witness :
  transaction_flag "tx-1"
    (reconcileMulti "tx-1" (Some [Some "exp-2"]) None Samples.ledger)
  = Some true.
Proof.
  refine (proj1 (reconciled_flag_after_call "tx-1" (Some [Some "exp-2"]) None
                   Samples.ledger _ _)).
  vm_compute. reflexivity.
Defined.

(** C9. Unreconcile undoes a single-link reconcile.  For a transaction and
    an expense on file, [reconcile_transaction_multi(tx, [e], [])] goes
    through and leaves the transaction flagged, the expense flagged and
    pointing back at the transaction, and one link between them;
    [unreconcile_transaction(tx)] right after it leaves the transaction
    unflagged, the expense unflagged with its back-reference cleared, and no
    link for the transaction.  It does not touch the invoices. *)
Theorem unreconcile_after_reconcile :
  forall (p_transaction_id v_expense_id : uuid) (s : db)
         (bt : bank_transactions_row) (ex : expenses_row),
    bank_transactions s !! p_transaction_id = Some bt ->
    expenses s !! v_expense_id = Some ex ->
    exists s1 s2 : db,
      reconcile_transaction_multi p_transaction_id
        (Some [Some v_expense_id]) (Some []) s = Ok s1
      /\ transaction_flag p_transaction_id s1 = Some true
      /\ expenses s1 !! v_expense_id = Some (mark_expense p_transaction_id ex)
      /\ links_of p_transaction_id s1
         = [ {| user_id := bt_user_id bt;
                bank_transaction_id := p_transaction_id;
                expense_id := Some v_expense_id;
                invoice_id := None;
                amount_matched := Some (ex_amount ex) |} ]
      /\ unreconcile_transaction p_transaction_id s1 = Ok s2
      /\ transaction_flag p_transaction_id s2 = Some false
      /\ ex_is_reconciled <$> expenses s2 !! v_expense_id = Some false
      /\ ex_reconciled_transaction_id <$> expenses s2 !! v_expense_id
         = Some None
      /\ links_of p_transaction_id s2 = []
      /\ quotes s2 = quotes s1
      /\ (forall t : db,
            exists t' : db,
              unreconcile_transaction p_transaction_id t = Ok t'
              /\ quotes t' = quotes t).
Proof.
  intros tx e s bt ex Hbt Hex.
  set (s0 := set_reconciliation_links
               (filter (fun l => bank_transaction_id l <> tx)) s).
  set (lnk := expense_link (bt_user_id bt) tx (Some e) s0).
  assert (Hok : insertable lnk s0 = true).
  { unfold insertable. subst lnk s0. cbn -[filter existsb].
    rewrite !(no_clash_after_delete _
                (expense_link (bt_user_id bt) tx (Some e) s)).
    rewrite Hbt, Hex. reflexivity. }
  assert (Hrun :
    reconcile_transaction_multi tx (Some [Some e]) (Some []) s
    = Ok (set_bank_transactions (alter mark_transaction tx)
            (set_expenses (mark_linked tx (Some e))
               (set_reconciliation_links
                  (fun links => links ++ [lnk])%list s0)))).
  { rewrite reconcile_unfold, Hbt.
    cbn [fmap option_fmap option_map default id foreach].
    fold s0. rewrite (link_expense_insertable _ _ _ _ Hok). reflexivity. }
  eexists. eexists. split; [exact Hrun |].
  split; [exact (flag_after _ _ _ _ _ Hrun) |].
  split.
  { simpl. now rewrite lookup_alter_eq, Hex. }
  split.
  { unfold links_of. cbn -[filter]. rewrite filter_app, filter_this_of_other.
    rewrite filter_cons_True by reflexivity.
    subst lnk. unfold expense_link. simpl. now rewrite Hex. }
  split; [reflexivity |].
  split.
  { unfold transaction_flag. simpl. now rewrite !lookup_alter_eq, Hbt. }
  split.
  { simpl. rewrite lookup_fmap, lookup_alter_eq, Hex. simpl.
    now rewrite bool_decide_eq_true_2. }
  split.
  { simpl. rewrite lookup_fmap, lookup_alter_eq, Hex. simpl.
    now rewrite bool_decide_eq_true_2. }
  split; [| split; [reflexivity |]].
  - unfold links_of. cbn -[filter]. apply filter_this_of_other.
  - intros t. eexists. split; reflexivity.
Qed.

Lemma unreconcile_after_reconcile_witness :
  exists s1 s2 : db,
    reconcile_transaction_multi "tx-1" (Some [Some "exp-2"]) (Some [])
      Samples.ledger = Ok s1
    /\ unreconcile_transaction "tx-1" s1 = Ok s2
    /\ transaction_flag "tx-1" s2 = Some false
    /\ ex_is_reconciled <$> expenses s2 !! "exp-2" = Some false
    /\ links_of "tx-1" s2 = [].
Proof.
  destruct (unreconcile_after_reconcile "tx-1" "exp-2" Samples.ledger
              (mk_bank_transaction "user-1" (-12000)%Z true None None)
              (mk_expense 4000%Z false None) eq_refl eq_refl)
    as (s1 & s2 & H1 & _ & _ & _ & H2 & H3 & H4 & _ & H5 & _ & _).
  exists s1, s2. repeat split; assumption.
Defined.

End LedgerFacts.

(** * More on the totals engine *)

Module TotalsMore.
Import Js QuoteCalculations JsFacts TotalsRelations.
Local Open Scope float_scope.

(** The three accumulators of the loop move independently of each other. *)
Lemma fold_addSection quote options (sections : list QuoteSection.t) :
  forall acc : running,
    let labour section :=
      calculateSectionLabour section (Quote.labourRate quote)
        (CalculationOptions.defaultLabourRate options) in
    let out := fold_left (addSection quote options) sections acc in
    r_materialsTotal out
    = fold_left PrimFloat.add (map calculateSectionMaterials sections)
        (r_materialsTotal acc)
    /\ r_labourTotal out
       = fold_left PrimFloat.add (map labour sections) (r_labourTotal acc)
    /\ r_sectionsTotal out
       = fold_left PrimFloat.add
           (map (fun section =>
                   calculateSectionPrice section
                     (calculateSectionMaterials section) (labour section))
              sections)
           (r_sectionsTotal acc).
Proof.
  induction sections as [| section sections IH]; intros acc; simpl.
  - repeat split.
  - apply (IH (addSection quote options acc section)).
Qed.

(** X1. The document totals are sums over the sections, taken from the
    left: materialsTotal of the section materials, labourTotal of the section
    labour at the document and default rates, and sectionsTotal of the
    section prices, each price being the override of its section or its
    materials + labour. *)
Theorem totals_are_section_sums :
  forall (quote : Quote.t) (options : CalculationOptions.t)
         (displayOptions : QuoteDisplayOptions.t),
    let totals := calculateQuoteTotals quote options displayOptions in
    let sections := Quote.sections quote ?? [] in
    let labour section :=
      calculateSectionLabour section (Quote.labourRate quote)
        (CalculationOptions.defaultLabourRate options) in
    QuoteTotals.materialsTotal totals
    = sum (map calculateSectionMaterials sections)
    /\ QuoteTotals.labourTotal totals = sum (map labour sections)
    /\ QuoteTotals.sectionsTotal totals
       = sum (map (fun section =>
                     QuoteSection.subsectionPrice section
                     ?? (calculateSectionMaterials section + labour section))
                sections).
Proof.
  intros quote options displayOptions totals sections labour.
  subst totals. unfold calculateQuoteTotals, sum. cbn [QuoteTotals.materialsTotal
    QuoteTotals.labourTotal QuoteTotals.sectionsTotal].
  destruct (fold_addSection quote options sections
              {| r_materialsTotal := 0; r_labourTotal := 0;
                 r_sectionsTotal := 0 |}) as (Hm & Hl & Hs).
  fold sections. rewrite Hm, Hl, Hs. repeat split.
Qed.

Lemma sameLabour_labour (a b : QuoteSection.t) rate defaultRate :
  sameLabour a b ->
  calculateSectionLabour a rate defaultRate
  = calculateSectionLabour b rate defaultRate.
Proof.
  intros (Hitems & Hhours & Hrate & Hcost). unfold calculateSectionLabour.
  now rewrite Hitems, Hhours, Hrate, Hcost.
Qed.

Lemma sameLabour_map (l l' : list QuoteSection.t) rate defaultRate :
  Forall2 sameLabour l l' ->
  map (fun s => calculateSectionLabour s rate defaultRate) l
  = map (fun s => calculateSectionLabour s rate defaultRate) l'.
Proof.
  induction 1 as [| a b l l' Hab _ IH]; simpl; [reflexivity |].
  now rewrite IH, (sameLabour_labour a b).
Qed.

(** X2. The CIS deduction is calculated on labour only.  Two documents whose
    sections have, one by one, the same labour, and which share the document
    rate and the CIS percentage, under options with the same default rate and
    the same CIS switches, have the same labourTotal and the same cisAmount:
    the materials, the price overrides, the markup, the discount and the tax
    of the documents, and the VAT switches, change neither. *)
Theorem cis_on_labour_only :
  forall (quote quote' : Quote.t) (options options' : CalculationOptions.t)
         (displayOptions displayOptions' : QuoteDisplayOptions.t),
    Forall2 sameLabour (Quote.sections quote ?? []) (Quote.sections quote' ?? []) ->
    Quote.labourRate quote = Quote.labourRate quote' ->
    Quote.cisPercent quote = Quote.cisPercent quote' ->
    CalculationOptions.defaultLabourRate options
    = CalculationOptions.defaultLabourRate options' ->
    CalculationOptions.enableCis options = CalculationOptions.enableCis options' ->
    QuoteDisplayOptions.showCis displayOptions
    = QuoteDisplayOptions.showCis displayOptions' ->
    QuoteTotals.labourTotal (calculateQuoteTotals quote options displayOptions)
    = QuoteTotals.labourTotal
        (calculateQuoteTotals quote' options' displayOptions')
    /\ QuoteTotals.cisAmount (calculateQuoteTotals quote options displayOptions)
       = QuoteTotals.cisAmount
           (calculateQuoteTotals quote' options' displayOptions').
Proof.
  intros quote quote' options options' displayOptions displayOptions'
    Hsections Hrate Hcis Hdefault Henable Hshow.
  assert (Hlabour :
    QuoteTotals.labourTotal (calculateQuoteTotals quote options displayOptions)
    = QuoteTotals.labourTotal
        (calculateQuoteTotals quote' options' displayOptions')).
  { unfold calculateQuoteTotals. cbn [QuoteTotals.labourTotal].
    destruct (fold_addSection quote options (Quote.sections quote ?? [])
                {| r_materialsTotal := 0; r_labourTotal := 0;
                   r_sectionsTotal := 0 |}) as (_ & -> & _).
    destruct (fold_addSection quote' options' (Quote.sections quote' ?? [])
                {| r_materialsTotal := 0; r_labourTotal := 0;
                   r_sectionsTotal := 0 |}) as (_ & -> & _).
    rewrite Hrate, Hdefault. f_equal. now apply sameLabour_map. }
  split; [exact Hlabour |].
  unfold calculateQuoteTotals in *. cbn [QuoteTotals.labourTotal
    QuoteTotals.cisAmount] in *.
  now rewrite Hlabour, Hcis, Henable, Hshow.
Qed.

Lemma cis_on_labour_only_witness :
  QuoteTotals.cisAmount
    (calculateQuoteTotals
       (Quote.mk (Some [Samples.simpleSection]) (Some 50) (Some 0) None None
          (Some 20) (Some 20) None None None)
       (CalculationOptions.mk true true true true 65)
       Samples.defaultDisplayOptions)
  = QuoteTotals.cisAmount
      (calculateQuoteTotals
         (Quote.mk (Some [Samples.zeroPricedSection]) (Some 50) (Some 35)
            (Some percentage) (Some 10) (Some 5) (Some 20) None None None)
         (CalculationOptions.mk false true false false 65)
         Samples.defaultDisplayOptions).
Proof.
  refine (proj2 (cis_on_labour_only _ _ _ _ _ _ _ eq_refl eq_refl eq_refl
                   eq_refl eq_refl)).
  repeat constructor.
Defined.

(** X3. A part payment that is enabled is computed as a discount of the same
    type and value is: nothing for a value that is unset, zero or [NaN], the
    percentage of the grand total for the type 'percentage', the value itself
    for any other type.  One that is not enabled ([false] or unset) is 0
    whatever the type and value. *)
Theorem part_payment_as_discount :
  forall (grandTotal : number) (enabled : option bool)
         (type : option AmountType) (value : option number),
    calculatePartPayment grandTotal (Some true) type value
    = calculateDiscount grandTotal type value
    /\ calculatePartPayment grandTotal (Some false) type value = 0
    /\ calculatePartPayment grandTotal None type value = 0
    /\ calculatePartPayment grandTotal enabled type value
       = if not_flag enabled then 0 else calculateDiscount grandTotal type value.
Proof.
  intros grandTotal enabled type value.
  unfold calculatePartPayment, calculateDiscount.
  repeat split.
  destruct enabled as [[|] |]; reflexivity.
Qed.

(** X4. VAT is charged only when the business switch [enableVat] of the
    calculation options and the document switch [showVat] of the display
    options are both on, and CIS likewise with [enableCis] and [showCis];
    with either off the amount is 0 whatever the percentage.  The flags
    [showVat] and [showCis] that the calculation options carry as well are
    never read: the totals are the same whatever they hold. *)
Theorem tax_gates :
  forall (quote : Quote.t) (options : CalculationOptions.t)
         (displayOptions : QuoteDisplayOptions.t),
    let totals := calculateQuoteTotals quote options displayOptions in
    (CalculationOptions.enableVat options
     && QuoteDisplayOptions.showVat displayOptions = false ->
     QuoteTotals.taxAmount totals = 0)
    /\ (CalculationOptions.enableCis options
        && QuoteDisplayOptions.showCis displayOptions = false ->
        QuoteTotals.cisAmount totals = 0)
    /\ (CalculationOptions.enableVat options
        && QuoteDisplayOptions.showVat displayOptions = true ->
        QuoteTotals.taxAmount totals
        = QuoteTotals.afterDiscount totals
          * ((Quote.taxPercent quote <||> 0) / 100))
    /\ (CalculationOptions.enableCis options
        && QuoteDisplayOptions.showCis displayOptions = true ->
        QuoteTotals.cisAmount totals
        = QuoteTotals.labourTotal totals
          * ((Quote.cisPercent quote <||> 0) / 100))
    /\ (forall showVat showCis : bool,
          calculateQuoteTotals quote
            (with_showFlags options showVat showCis) displayOptions
          = totals).
Proof.
  intros quote options displayOptions totals. subst totals.
  assert (Hgates :
    let totals := calculateQuoteTotals quote options displayOptions in
    (CalculationOptions.enableVat options
     && QuoteDisplayOptions.showVat displayOptions = false ->
     QuoteTotals.taxAmount totals = 0)
    /\ (CalculationOptions.enableCis options
        && QuoteDisplayOptions.showCis displayOptions = false ->
        QuoteTotals.cisAmount totals = 0)
    /\ (CalculationOptions.enableVat options
        && QuoteDisplayOptions.showVat displayOptions = true ->
        QuoteTotals.taxAmount totals
        = QuoteTotals.afterDiscount totals
          * ((Quote.taxPercent quote <||> 0) / 100))
    /\ (CalculationOptions.enableCis options
        && QuoteDisplayOptions.showCis displayOptions = true ->
        QuoteTotals.cisAmount totals
        = QuoteTotals.labourTotal totals
          * ((Quote.cisPercent quote <||> 0) / 100)));
    [| destruct Hgates as (H1 & H2 & H3 & H4);
       repeat split; try assumption; reflexivity ].
  unfold calculateQuoteTotals, calculateVat, calculateCis.
  cbn [QuoteTotals.taxAmount QuoteTotals.cisAmount QuoteTotals.afterDiscount
       QuoteTotals.labourTotal VatOptions.enableVat VatOptions.showVat
       CisOptions.enableCis CisOptions.showCis].
  destruct (CalculationOptions.enableVat options),
    (QuoteDisplayOptions.showVat displayOptions),
    (CalculationOptions.enableCis options),
    (QuoteDisplayOptions.showCis displayOptions);
    cbn [andb negb orb]; repeat split; try discriminate; reflexivity.
Qed.

Lemma tax_gates_witness :
  QuoteTotals.taxAmount
    (calculateQuoteTotals Samples.simpleQuote
       (CalculationOptions.mk false false true true 65)
       Samples.defaultDisplayOptions)
  = 0.
Proof.
  exact (proj1 (tax_gates Samples.simpleQuote
                  (CalculationOptions.mk false false true true 65)
                  Samples.defaultDisplayOptions) eq_refl).
Defined.

End TotalsMore.

(** * More on the suggestion pass and the page *)

Module MatcherMore.
Import Js Matcher JsFacts.
Local Open Scope float_scope.

Section Pass.
Variable Date_new : string -> number.
Variable toFixed : number -> nat -> string.
Variable Number_toString : number -> string.

#[local] Abbreviation outgoing := (outgoingSuggestions Date_new toFixed).
#[local] Abbreviation incoming :=
  (incomingSuggestions Date_new toFixed Number_toString).
#[local] Abbreviation suggestions :=
  (suggestionsFor Date_new toFixed Number_toString).
#[local] Abbreviation pass := (autoMatch Date_new toFixed Number_toString).

(** The days between a transaction and a date string, as the page counts
    them. *)
#[local] Abbreviation days tx date :=
  (abs ((Date_new (BankTransaction.transaction_date tx) - Date_new date)
        / msPerDay)).

Lemma gtb_zero_exclusive (x : number) :
  (0 <? x) = true -> (x <? 0) = false.
Proof.
  intros Hpos. destruct (x <? 0) eqn:Hneg; [| reflexivity].
  rewrite (ltb_zero_exclusive _ Hneg) in Hpos. discriminate.
Qed.

(** What an outgoing suggestion looks like. *)
Lemma outgoing_inv pool (tx : BankTransaction.t) (m : SuggestedMatch.t) :
  In m (outgoing pool tx) ->
  exists e rest,
    List.filter
      (expenseMatches Date_new (abs (BankTransaction.amount tx))
         (Date_new (BankTransaction.transaction_date tx))) pool
    = e :: rest
    /\ (BankTransaction.amount tx <? 0) = true
    /\ SuggestedMatch.transaction m = tx
    /\ SuggestedMatch.expense m = Some e
    /\ SuggestedMatch.invoice m = None
    /\ SuggestedMatch.confidence m
       = (if (abs (abs (BankTransaction.amount tx) - Expense.amount e) <? 0.01)
             && (days tx (Expense.expense_date e) <=? 2)
          then high
          else if days tx (Expense.expense_date e) <=? 5 then medium else low).
Proof.
  unfold outgoingSuggestions.
  destruct (BankTransaction.amount tx <? 0); [| intros []].
  destruct (List.filter _ pool) as [| e rest]; [intros [] |].
  intros [<- | []]. exists e, rest. repeat split.
Qed.

(** What an incoming suggestion looks like. *)
Lemma incoming_inv invoices (tx : BankTransaction.t) (m : SuggestedMatch.t) :
  In m (incoming invoices tx) ->
  exists i rest,
    List.filter
      (invoiceMatches Date_new (BankTransaction.amount tx)
         (Date_new (BankTransaction.transaction_date tx))) invoices
    = i :: rest
    /\ (0 <? BankTransaction.amount tx) = true
    /\ SuggestedMatch.transaction m = tx
    /\ SuggestedMatch.expense m = None
    /\ SuggestedMatch.invoice m = Some i
    /\ SuggestedMatch.confidence m
       = (if days tx (Invoice.updated_at i) <=? 7 then high
          else if days tx (Invoice.updated_at i) <=? 14 then medium else low).
Proof.
  unfold incomingSuggestions.
  destruct (0 <? BankTransaction.amount tx); [| intros []].
  destruct (List.filter _ invoices) as [| i rest]; [intros [] |].
  intros [<- | []]. exists i, rest. repeat split.
Qed.

Lemma filter_head_In {A : Type} (f : A -> bool) (l : list A) (x : A) rest :
  List.filter f l = x :: rest -> In x l /\ f x = true.
Proof.
  intros H. apply List.filter_In. rewrite H. now left.
Qed.

(** X5. For an incoming transaction (amount above zero) the suggestion names
    the first invoice of the list whose total is within 0.01 of the amount
    and whose last update is at most 30 days from the transaction; it names
    no expense, whatever the expenses are; and with no such invoice the
    transaction yields nothing. *)
Theorem incoming_first_match :
  forall (pool : list Expense.t) (invoices : list Invoice.t)
         (t : BankTransaction.t),
    (0 <? BankTransaction.amount t) = true ->
    let matches inv :=
      (abs (BankTransaction.amount t - Invoice.total inv) <? 0.01)
      && (days t (Invoice.updated_at inv) <=? 30) in
    (forall before inv after,
        invoices = (before ++ inv :: after)%list ->
        Forall (fun x => matches x = false) before ->
        matches inv = true ->
        exists m : SuggestedMatch.t,
          suggestions pool invoices t = [m]
          /\ SuggestedMatch.transaction m = t
          /\ SuggestedMatch.invoice m = Some inv
          /\ SuggestedMatch.expense m = None)
    /\ (Forall (fun x => matches x = false) invoices ->
        suggestions pool invoices t = []).
Proof.
  intros pool invoices t Hpos matches.
  assert (Hout : outgoing pool t = []).
  { unfold outgoingSuggestions. now rewrite (gtb_zero_exclusive _ Hpos). }
  unfold suggestionsFor. rewrite Hout. cbn [app].
  unfold incomingSuggestions. rewrite Hpos.
  change (invoiceMatches Date_new (BankTransaction.amount t)
            (Date_new (BankTransaction.transaction_date t))) with matches.
  split.
  - intros before inv after -> Hbefore Hinv.
    rewrite (MatcherFacts.filter_first _ _ _ _ Hbefore Hinv).
    eexists. repeat split.
  - intros Hnone. now rewrite (MatcherFacts.filter_none _ _ Hnone).
Qed.

Lemma pass_In previous transactions expenses invoices (m : SuggestedMatch.t) :
  transactions <> [] ->
  In m (pass previous transactions expenses invoices) ->
  exists tx,
    In tx transactions
    /\ BankTransaction.is_reconciled tx = false
    /\ In m (suggestions
               (List.filter (fun exp => negb (Expense.is_reconciled exp))
                  expenses)
               invoices tx).
Proof.
  intros Hne. unfold autoMatch.
  destruct transactions as [| t0 rest]; [contradiction |].
  cbn [length Nat.eqb]. intros Hm.
  apply in_flat_map in Hm as (tx & Htx & Hm).
  apply List.filter_In in Htx as [Htx Hun].
  exists tx. repeat split; try assumption.
  now destruct (BankTransaction.is_reconciled tx).
Qed.

(** X6. Whatever a pass over a non-empty list of transactions suggests is
    sound.  The transaction of a suggestion is one of the list and is not
    reconciled; the suggestion names either an expense or an invoice, never
    both and never neither; a named expense is one of the expenses, is not
    reconciled, and goes with a transaction below zero that meets the amount
    and date rule; a named invoice is one of the loaded quotes of type
    'invoice' and status 'paid', and goes with a transaction above zero whose
    amount is within 0.01 of its total at most 30 days away. *)
Theorem suggestions_sound :
  forall (previous : list SuggestedMatch.t)
         (transactions : list BankTransaction.t)
         (expenses : list Expense.t) (quoteData : option (list Invoice.t))
         (m : SuggestedMatch.t),
    transactions <> [] ->
    In m (pass previous transactions expenses (Page.paidInvoices quoteData)) ->
    let tx := SuggestedMatch.transaction m in
    In tx transactions
    /\ BankTransaction.is_reconciled tx = false
    /\ ((exists e : Expense.t,
           SuggestedMatch.expense m = Some e
           /\ SuggestedMatch.invoice m = None
           /\ In e expenses
           /\ Expense.is_reconciled e = false
           /\ (BankTransaction.amount tx <? 0) = true
           /\ spec_expense_qualifies Date_new tx e = true)
        \/ (exists i : Invoice.t,
              SuggestedMatch.invoice m = Some i
              /\ SuggestedMatch.expense m = None
              /\ In i (quoteData ?? [])
              /\ Invoice.type i = "invoice"%string
              /\ Invoice.status i = "paid"%string
              /\ (0 <? BankTransaction.amount tx) = true
              /\ (abs (BankTransaction.amount tx - Invoice.total i) <? 0.01)
                 = true
              /\ (days tx (Invoice.updated_at i) <=? 30) = true)).
Proof.
  intros previous transactions expenses quoteData m Hne Hm tx.
  destruct (pass_In _ _ _ _ _ Hne Hm) as (tx' & Hin & Hun & Hsug).
  unfold suggestionsFor in Hsug. apply in_app_or in Hsug as [Hout | Hinc].
  - destruct (outgoing_inv _ _ _ Hout)
      as (e & rest & Hf & Hneg & Htx & He & Hi & _).
    subst tx. rewrite Htx. split; [exact Hin |]. split; [exact Hun |].
    left. exists e.
    apply filter_head_In in Hf as [Hpool Hq].
    apply List.filter_In in Hpool as [Hexp Hfree].
    rewrite MatcherFacts.expenseMatches_spec in Hq.
    repeat split; try assumption.
    now destruct (Expense.is_reconciled e).
  - destruct (incoming_inv _ _ _ Hinc)
      as (i & rest & Hf & Hpos & Htx & He & Hi & _).
    subst tx. rewrite Htx. split; [exact Hin |]. split; [exact Hun |].
    right. exists i.
    apply filter_head_In in Hf as [Hpaid Hq].
    unfold Page.paidInvoices in Hpaid.
    apply List.filter_In in Hpaid as [Hquote Hkind].
    apply andb_prop in Hkind as [Htype Hstatus].
    apply String.eqb_eq in Htype, Hstatus.
    unfold invoiceMatches, getTime in Hq. apply andb_prop in Hq as [Hamt Hdays].
    repeat split; assumption.
Qed.

Lemma flat_map_at_most {A B : Type} (f : A -> list B) (l : list A) :
  (forall x, length (f x) <= 1)%nat ->
  (length (flat_map f l) <= length l)%nat.
Proof.
  intros Hf. induction l as [| x l IH]; simpl; [lia |].
  rewrite length_app. pose proof (Hf x). lia.
Qed.

(** X7. A pass over a non-empty list of transactions shows at most one
    suggestion for each transaction that is not reconciled, so the count of
    suggested matches on the page never exceeds the count of pending
    transactions; a pass over no transactions at all returns before it sets
    anything and leaves the suggestions that were shown. *)
Theorem suggestions_at_most_pending :
  forall (previous : list SuggestedMatch.t)
         (transactions : list BankTransaction.t)
         (expenses : list Expense.t) (invoices : list Invoice.t),
    (transactions <> [] ->
     let shown := pass previous transactions expenses invoices in
     (length shown
      <= length (List.filter
                   (fun tx => negb (BankTransaction.is_reconciled tx))
                   transactions))%nat
     /\ (Page.Stats.suggestedCount (Page.stats transactions shown)
         <= Page.Stats.pending (Page.stats transactions shown))%Z)
    /\ pass previous [] expenses invoices = previous.
Proof.
  intros previous transactions expenses invoices.
  split; [| reflexivity]. intros Hne shown.
  assert (Hlen :
    (length shown
     <= length (List.filter
                  (fun tx => negb (BankTransaction.is_reconciled tx))
                  transactions))%nat).
  { subst shown. unfold autoMatch.
    destruct transactions as [| t0 rest]; [contradiction |].
    cbn [length Nat.eqb]. apply flat_map_at_most.
    intros tx. apply MatcherFacts.suggestions_at_most_one. }
  split; [exact Hlen |].
  unfold Page.stats. cbn [Page.Stats.suggestedCount Page.Stats.pending].
  assert (Hsplit :
    (length transactions
     = length (List.filter BankTransaction.is_reconciled transactions)
       + length (List.filter
                   (fun tx => negb (BankTransaction.is_reconciled tx))
                   transactions))%nat).
  { clear. induction transactions as [| tx l IH]; simpl; [reflexivity |].
    destruct (BankTransaction.is_reconciled tx); simpl; lia. }
  lia.
Qed.

(** X8. The confidence of a suggestion stays within its bands.  An expense is
    suggested only at most 7 days from the transaction; the suggestion is
    rated high only when the amounts agree to the penny as they are and the
    dates are at most 2 days apart, so a match found through the factor 1.2
    alone is never rated high; it is rated medium only at most 5 days apart.
    An invoice is suggested only at most 30 days away and is rated high
    exactly when at most 7 days away. *)
Theorem confidence_bands :
  forall (pool : list Expense.t) (invoices : list Invoice.t)
         (t : BankTransaction.t) (m : SuggestedMatch.t),
    In m (suggestions pool invoices t) ->
    (forall e : Expense.t,
        SuggestedMatch.expense m = Some e ->
        let exact :=
          abs (abs (BankTransaction.amount t) - Expense.amount e) <? 0.01 in
        (days t (Expense.expense_date e) <=? 7) = true
        /\ (SuggestedMatch.confidence m = high ->
            exact = true /\ (days t (Expense.expense_date e) <=? 2) = true)
        /\ (exact = false -> SuggestedMatch.confidence m = high -> False)
        /\ (SuggestedMatch.confidence m = medium ->
            (days t (Expense.expense_date e) <=? 5) = true))
    /\ (forall i : Invoice.t,
          SuggestedMatch.invoice m = Some i ->
          (days t (Invoice.updated_at i) <=? 30) = true
          /\ (SuggestedMatch.confidence m = high
              <-> (days t (Invoice.updated_at i) <=? 7) = true)).
Proof.
  intros pool invoices t m Hm.
  unfold suggestionsFor in Hm. apply in_app_or in Hm as [Hout | Hinc].
  - destruct (outgoing_inv _ _ _ Hout)
      as (e & rest & Hf & _ & _ & He & Hi & Hconf).
    split; [| intros i Hsome; congruence].
    intros e' He' exact. rewrite He in He'. injection He' as <-.
    apply filter_head_In in Hf as [_ Hq].
    rewrite MatcherFacts.expenseMatches_spec in Hq.
    unfold spec_expense_qualifies in Hq.
    apply andb_prop in Hq as [Hdays _].
    split; [exact Hdays |].
    subst exact. rewrite Hconf.
    destruct (abs (abs (BankTransaction.amount t) - Expense.amount e) <? 0.01),
      (days t (Expense.expense_date e) <=? 2),
      (days t (Expense.expense_date e) <=? 5);
      cbn [andb]; repeat split; congruence.
  - destruct (incoming_inv _ _ _ Hinc)
      as (i & rest & Hf & _ & _ & He & Hi & Hconf).
    split; [intros e Hsome; congruence |].
    intros i' Hi'. rewrite Hi in Hi'. injection Hi' as <-.
    apply filter_head_In in Hf as [_ Hq].
    unfold invoiceMatches, getTime in Hq. apply andb_prop in Hq as [_ Hdays].
    split; [exact Hdays |]. rewrite Hconf.
    destruct (days t (Invoice.updated_at i) <=? 7),
      (days t (Invoice.updated_at i) <=? 14); split; congruence.
Qed.

(** X9. What a transaction is offered depends on its amount and date alone.
    Two transactions with the same amount and the same date are offered the
    same expense or invoice with the same confidence and reason, so an
    expense offered to one is not withheld from the other; and in a pass the
    suggestions of a transaction that is not reconciled stand between those
    of the transactions before it and those after it, whatever these are. *)
Theorem suggestions_by_amount_and_date :
  forall (previous : list SuggestedMatch.t)
         (expenses : list Expense.t) (invoices : list Invoice.t)
         (t1 t2 : BankTransaction.t),
    BankTransaction.amount t1 = BankTransaction.amount t2 ->
    BankTransaction.transaction_date t1 = BankTransaction.transaction_date t2 ->
    let pool :=
      List.filter (fun exp => negb (Expense.is_reconciled exp)) expenses in
    let unreconciled :=
      List.filter (fun tx => negb (BankTransaction.is_reconciled tx)) in
    map SuggestedMatch.expense (suggestions pool invoices t1)
    = map SuggestedMatch.expense (suggestions pool invoices t2)
    /\ map SuggestedMatch.invoice (suggestions pool invoices t1)
       = map SuggestedMatch.invoice (suggestions pool invoices t2)
    /\ map SuggestedMatch.confidence (suggestions pool invoices t1)
       = map SuggestedMatch.confidence (suggestions pool invoices t2)
    /\ map SuggestedMatch.reason (suggestions pool invoices t1)
       = map SuggestedMatch.reason (suggestions pool invoices t2)
    /\ (forall before after : list BankTransaction.t,
          BankTransaction.is_reconciled t1 = false ->
          pass previous (before ++ t1 :: after) expenses invoices
          = (flat_map (suggestions pool invoices) (unreconciled before)
             ++ suggestions pool invoices t1
             ++ flat_map (suggestions pool invoices) (unreconciled after))%list).
Proof.
  intros previous expenses invoices t1 t2 Hamount Hdate pool unreconciled.
  assert (Hsame : forall (A : Type) (f : SuggestedMatch.t -> A),
            (forall tx c r e i,
                f (SuggestedMatch.mk tx e i c r)
                = f (SuggestedMatch.mk t1 e i c r)) ->
            map f (suggestions pool invoices t1)
            = map f (suggestions pool invoices t2)).
  { intros A f Hf. unfold suggestionsFor, outgoingSuggestions,
      incomingSuggestions. rewrite <- Hamount, <- Hdate.
    destruct (BankTransaction.amount t1 <? 0),
      (0 <? BankTransaction.amount t1);
      repeat match goal with
             | |- context [match List.filter ?g ?l with _ => _ end] =>
                 destruct (List.filter g l)
             end;
      cbn [app map]; rewrite ?(Hf t2); reflexivity. }
  split; [now apply Hsame |]. split; [now apply Hsame |].
  split; [now apply Hsame |]. split; [now apply Hsame |].
  intros before after Hun. unfold autoMatch.
  destruct (before ++ t1 :: after)%list as [| t0 rest] eqn:Hl.
  { destruct before; discriminate. }
  cbn [length Nat.eqb]. rewrite <- Hl. fold pool.
  rewrite List.filter_app. cbn [List.filter]. rewrite Hun. cbn [negb].
  rewrite flat_map_app. reflexivity.
Qed.

End Pass.

Lemma suggestions_at_most_pending_witness :
  (length
     (autoMatch Samples.Date_new Samples.toFixed Samples.Number_toString []
        [Samples.payment (-120)%float; Samples.payment 0%float]
        [Samples.receipt "exp-1" 100%float] [])
   <= length
        (List.filter (fun tx => negb (BankTransaction.is_reconciled tx))
           [Samples.payment (-120)%float; Samples.payment 0%float]))%nat.
Proof.
  refine (proj1 (proj1
            (suggestions_at_most_pending Samples.Date_new Samples.toFixed
               Samples.Number_toString []
               [Samples.payment (-120); Samples.payment 0]
               [Samples.receipt "exp-1" 100] []) _)).
  discriminate.
Defined.

Lemma incoming_first_match_witness :
  exists m : SuggestedMatch.t,
    suggestionsFor Samples.Date_new Samples.toFixed Samples.Number_toString
      [] [Samples.paidInvoice "inv-0" 480; Samples.paidInvoice "inv-1" 500]
      (Samples.payment 500)
    = [m]
    /\ SuggestedMatch.transaction m = Samples.payment 500
    /\ SuggestedMatch.invoice m = Some (Samples.paidInvoice "inv-1" 500)
    /\ SuggestedMatch.expense m = None.
Proof.
  refine (proj1 (incoming_first_match Samples.Date_new Samples.toFixed
                   Samples.Number_toString []
                   [Samples.paidInvoice "inv-0" 480;
                    Samples.paidInvoice "inv-1" 500]
                   (Samples.payment 500) eq_refl)
            [Samples.paidInvoice "inv-0" 480] (Samples.paidInvoice "inv-1" 500)
            [] eq_refl _ eq_refl).
  repeat constructor.
Defined.

Lemma suggestions_sound_witness :
  Forall
    (fun m => BankTransaction.is_reconciled (SuggestedMatch.transaction m)
              = false)
    (autoMatch Samples.Date_new Samples.toFixed Samples.Number_toString []
       [Samples.payment 500] []
       (Page.paidInvoices (Some [Samples.paidInvoice "inv-1" 500]))).
Proof.
  apply List.Forall_forall. intros m Hm.
  refine (proj1 (proj2
            (suggestions_sound Samples.Date_new Samples.toFixed
               Samples.Number_toString [] [Samples.payment 500] []
               (Some [Samples.paidInvoice "inv-1" 500]) m _ Hm))).
  discriminate.
Defined.

Lemma confidence_bands_witness :
  Forall (fun m => SuggestedMatch.confidence m = high -> False)
    (suggestionsFor Samples.Date_new Samples.toFixed Samples.Number_toString
       [Samples.receipt "exp-1" 100] [] (Samples.payment (-120))).
Proof.
  apply List.Forall_forall. intros m Hm.
  refine (proj1 (proj2 (proj2
            (proj1 (confidence_bands Samples.Date_new Samples.toFixed
                      Samples.Number_toString [Samples.receipt "exp-1" 100] []
                      (Samples.payment (-120)) m Hm)
               (Samples.receipt "exp-1" 100) _))) eq_refl).
  destruct Hm as [<- | []]. reflexivity.
Defined.

Lemma suggestions_by_amount_and_date_witness :
  map SuggestedMatch.expense
    (suggestionsFor Samples.Date_new Samples.toFixed Samples.Number_toString
       [Samples.receipt "exp-1" 100] [] (Samples.payment (-120)))
  = map SuggestedMatch.expense
      (suggestionsFor Samples.Date_new Samples.toFixed Samples.Number_toString
         [Samples.receipt "exp-1" 100] []
         (BankTransaction.mk "tx-2" "2026-01-10" "DIRECT DEBIT" (-120) None
            false None None)).
Proof.
  exact (proj1 (suggestions_by_amount_and_date Samples.Date_new Samples.toFixed
                  Samples.Number_toString [] [Samples.receipt "exp-1" 100] []
                  (Samples.payment (-120))
                  (BankTransaction.mk "tx-2" "2026-01-10" "DIRECT DEBIT"
                     (-120) None false None None)
                  eq_refl eq_refl)).
Defined.

End MatcherMore.

Module PageFacts.
Import Page.

Section Memos.
Variable toLowerCase : string -> string.
Variable includes : string -> string -> bool.

#[local] Abbreviation view := (filteredTransactions toLowerCase includes).

Lemma views_split (transactions : list BankTransaction.t) (term : string) :
  length (view transactions all term)
  = (length (view transactions reconciled term)
     + length (view transactions unreconciled term))%nat.
Proof.
  unfold filteredTransactions.
  induction transactions as [| tx l IH]; [reflexivity |].
  cbn [List.filter].
  assert (Hcases :
    (BankTransaction.is_reconciled tx = true
     /\ shown toLowerCase includes reconciled term tx
        = shown toLowerCase includes all term tx
     /\ shown toLowerCase includes unreconciled term tx = false)
    \/ (BankTransaction.is_reconciled tx = false
        /\ shown toLowerCase includes unreconciled term tx
           = shown toLowerCase includes all term tx
        /\ shown toLowerCase includes reconciled term tx = false)).
  { unfold shown. cbn [Filter_eqb andb].
    destruct (BankTransaction.is_reconciled tx); [left | right];
      repeat split. }
  destruct Hcases as [(_ & -> & ->) | (_ & -> & ->)];
    destruct (shown toLowerCase includes all term tx); cbn [length]; lia.
Qed.

Lemma view_unsearched (transactions : list BankTransaction.t) :
  view transactions all "" = transactions
  /\ view transactions reconciled ""
     = List.filter BankTransaction.is_reconciled transactions
  /\ view transactions unreconciled ""
     = List.filter (fun tx => negb (BankTransaction.is_reconciled tx))
         transactions.
Proof.
  unfold filteredTransactions.
  induction transactions as [| tx l (IH1 & IH2 & IH3)]; [repeat split |].
  cbn [List.filter]. rewrite IH1, IH2, IH3. unfold shown.
  cbn [Filter_eqb andb nonempty].
  destruct (BankTransaction.is_reconciled tx); repeat split.
Qed.

(** X10. The figures of the page agree with its lists.  Under any search
    term, every transaction that the filter 'all' shows is shown by exactly
    one of 'reconciled' and 'unreconciled', and each list keeps a part of the
    transactions.  With no search term 'all' shows every transaction, and
    the statistics count what the lists hold: total is the length of 'all',
    reconciled that of 'reconciled' and pending, computed as the difference,
    that of 'unreconciled', so it is never negative. *)
Theorem stats_and_views :
  forall (transactions : list BankTransaction.t)
         (suggestions : list SuggestedMatch.t) (term : string),
    let figures := stats transactions suggestions in
    length (view transactions all term)
    = (length (view transactions reconciled term)
       + length (view transactions unreconciled term))%nat
    /\ (forall (filter : Filter) (tx : BankTransaction.t),
          In tx (view transactions filter term) -> In tx transactions)
    /\ view transactions all "" = transactions
    /\ Stats.total figures = Z.of_nat (length (view transactions all ""))
    /\ Stats.reconciled figures
       = Z.of_nat (length (view transactions reconciled ""))
    /\ Stats.pending figures
       = Z.of_nat (length (view transactions unreconciled ""))
    /\ (0 <= Stats.pending figures)%Z
    /\ Stats.total figures
       = (Stats.reconciled figures + Stats.pending figures)%Z.
Proof.
  intros transactions suggestions term figures.
  destruct (view_unsearched transactions) as (Hall & Hrec & Hun).
  pose proof (views_split transactions "") as Hsplit.
  rewrite Hall, Hrec, Hun in Hsplit.
  split; [apply views_split |].
  split.
  { intros filter tx Hin. unfold filteredTransactions in Hin.
    now apply List.filter_In in Hin as [Hin _]. }
  split; [exact Hall |].
  subst figures. unfold stats.
  cbn [Stats.total Stats.reconciled Stats.pending].
  rewrite Hall, Hrec, Hun. repeat split; lia.
Qed.

End Memos.
End PageFacts.

(** * More on the settlement ledger *)

Module LedgerMore.
Import Ledger LedgerSpec LedgerViews LedgerFacts.

(** The links the expense loop writes, in the order of the array. *)
Lemma expense_loop_links u tx (ids : list (option uuid)) :
  forall s s' : db,
    foreach (link_expense u tx) ids s = Ok s' ->
    reconciliation_links s'
    = (reconciliation_links s
       ++ map (fun e => expense_link u tx e s) ids)%list.
Proof.
  induction ids as [| e ids IH]; intros s s' Hrun; simpl in Hrun.
  - injection Hrun as <-. simpl. now rewrite app_nil_r.
  - destruct (link_expense u tx e s) as [s1 | err] eqn:Hstep;
      simpl in Hrun; [| discriminate].
    apply link_expense_Ok in Hstep as [_ ->].
    rewrite (IH _ _ Hrun). simpl. rewrite <- app_assoc. simpl.
    do 2 f_equal. apply map_ext. intros e'. unfold expense_link. simpl.
    f_equal. destruct e' as [k |]; simpl; [| reflexivity].
    apply mark_expense_amount.
Qed.

(** The links the invoice loop writes, in the order of the array. *)
Lemma invoice_loop_links u tx (ids : list (option uuid)) :
  forall s s' : db,
    foreach (link_invoice u tx) ids s = Ok s' ->
    reconciliation_links s'
    = (reconciliation_links s
       ++ map (fun i => invoice_link u tx i s) ids)%list.
Proof.
  induction ids as [| i ids IH]; intros s s' Hrun; simpl in Hrun.
  - injection Hrun as <-. simpl. now rewrite app_nil_r.
  - destruct (link_invoice u tx i s) as [s1 | err] eqn:Hstep;
      simpl in Hrun; [| discriminate].
    apply link_invoice_Ok in Hstep as [_ ->].
    rewrite (IH _ _ Hrun). simpl. rewrite <- app_assoc. reflexivity.
Qed.

(** The expense rows after the loop: marked when listed, as they were when
    not. *)
Lemma expense_loop_expenses u tx (ids : list (option uuid)) :
  forall (s s' : db) (k : uuid),
    foreach (link_expense u tx) ids s = Ok s' ->
    expenses s' !! k
    = if bool_decide (Some k ∈ ids)
      then mark_expense tx <$> expenses s !! k
      else expenses s !! k.
Proof.
  induction ids as [| e ids IH]; intros s s' k Hrun; simpl in Hrun.
  - injection Hrun as <-. rewrite bool_decide_eq_false_2; [reflexivity |].
    apply not_elem_of_nil.
  - destruct (link_expense u tx e s) as [s1 | err] eqn:Hstep;
      simpl in Hrun; [| discriminate].
    apply link_expense_Ok in Hstep as [_ ->].
    rewrite (IH _ _ k Hrun). simpl.
    assert (Hstep : mark_linked tx e (expenses s) !! k
                    = if bool_decide (e = Some k)
                      then mark_expense tx <$> expenses s !! k
                      else expenses s !! k).
    { destruct e as [j |]; simpl.
      - rewrite lookup_alter. case_bool_decide as Hj.
        + injection Hj as ->. now rewrite decide_True.
        + rewrite decide_False; [reflexivity | congruence].
      - reflexivity. }
    rewrite Hstep.
    destruct (decide (e = Some k)) as [He | He],
      (decide (Some k ∈ ids)) as [Hids | Hids].
    + rewrite (bool_decide_eq_true_2 _ Hids), (bool_decide_eq_true_2 _ He).
      rewrite bool_decide_eq_true_2 by (now right).
      now destruct (expenses s !! k).
    + rewrite (bool_decide_eq_false_2 _ Hids), (bool_decide_eq_true_2 _ He).
      now rewrite bool_decide_eq_true_2 by (subst; left).
    + rewrite (bool_decide_eq_true_2 _ Hids), (bool_decide_eq_false_2 _ He).
      now rewrite bool_decide_eq_true_2 by (now right).
    + rewrite (bool_decide_eq_false_2 _ Hids), (bool_decide_eq_false_2 _ He).
      rewrite bool_decide_eq_false_2; [reflexivity |].
      intros [Hk | Hk]%elem_of_cons; [congruence | contradiction].
Qed.

Lemma links_of_other tx tx' (l L : list reconciliation_links_row) :
  tx' <> tx ->
  Forall (fun x => bank_transaction_id x = tx) L ->
  filter (fun x => bank_transaction_id x = tx')
    (filter (fun x => bank_transaction_id x <> tx) l ++ L)%list
  = filter (fun x => bank_transaction_id x = tx') l.
Proof.
  intros Hne HL. rewrite filter_app.
  rewrite list_filter_filter_l by (intros x ->; exact Hne).
  assert (HnoL : filter (fun x => bank_transaction_id x = tx') L = []).
  { clear -Hne HL. induction HL as [| x L Hx _ IH]; [reflexivity |].
    rewrite filter_cons_False by congruence. exact IH. }
  now rewrite HnoL, app_nil_r.
Qed.

(** The links of the transaction after a call, in full. *)
Lemma links_of_reconciled tx exps invs (s s' : db) (bt : bank_transactions_row) :
  bank_transactions s !! tx = Some bt ->
  reconcile_transaction_multi tx exps invs s = Ok s' ->
  links_of tx s'
  = (map (fun e => expense_link (bt_user_id bt) tx e s) (default [] exps)
     ++ map (fun i => invoice_link (bt_user_id bt) tx i s) (default [] invs))%list.
Proof.
  intros Hbt Hrun.
  destruct (reconcile_Ok _ _ _ _ _ Hrun) as (bt' & s1 & s2 & Hbt' & HE & HI & ->).
  rewrite Hbt in Hbt'. injection Hbt' as <-.
  destruct (expense_loop_frame _ _ _ _ _ HE) as (_ & HqE & _).
  pose proof (expense_loop_links _ _ _ _ _ HE) as HLE.
  pose proof (invoice_loop_links _ _ _ _ _ HI) as HLI.
  unfold links_of. cbn [reconciliation_links set_bank_transactions].
  rewrite HLI, HLE. cbn [reconciliation_links set_reconciliation_links].
  rewrite !filter_app, filter_this_of_other. cbn [app].
  rewrite !filter_this_all.
  - f_equal. apply map_ext. intros i. unfold invoice_link.
    simpl in HqE. now rewrite HqE.
  - apply Forall_map. apply Forall_true. reflexivity.
  - apply Forall_map. apply Forall_true. reflexivity.
Qed.

Lemma existsb_clash_absent (c : reconciliation_links_row -> option uuid)
    (l : reconciliation_links_row) (links : list reconciliation_links_row) :
  c l = None -> existsb (clashes c l) links = false.
Proof.
  intros Hc. induction links as [| x links IH]; [reflexivity |].
  simpl. rewrite IH. unfold clashes. rewrite Hc. now rewrite andb_false_r.
Qed.

Lemma existsb_clash_taken (c : reconciliation_links_row -> option uuid)
    (l : reconciliation_links_row) (links : list reconciliation_links_row)
    (k : uuid) :
  c l = Some k ->
  existsb (clashes c l) links = false
  <-> Some k ∉ map c (filter (fun x => bank_transaction_id x
                                        = bank_transaction_id l) links).
Proof.
  intros Hc. induction links as [| x links IH].
  - simpl. split; [intros _; apply not_elem_of_nil | reflexivity].
  - cbn [existsb]. rewrite filter_cons. unfold clashes at 1. rewrite Hc.
    destruct (decide (bank_transaction_id x = bank_transaction_id l))
      as [Hx | Hx].
    + rewrite bool_decide_eq_true_2 by congruence. cbn [andb map].
      rewrite not_elem_of_cons, <- IH.
      destruct (c x) as [b |]; [| cbn [orb]; intuition congruence].
      destruct (decide (k = b)) as [-> | Hkb].
      * rewrite bool_decide_eq_true_2 by reflexivity. cbn [orb].
        intuition congruence.
      * rewrite bool_decide_eq_false_2 by exact Hkb. cbn [orb].
        intuition congruence.
    + rewrite bool_decide_eq_false_2 by congruence. cbn [andb orb]. exact IH.
Qed.

Lemma on_file_mark tx e (t : gmap uuid expenses_row) ids :
  on_file (mark_linked tx e t) ids <-> on_file t ids.
Proof.
  unfold on_file. apply Forall_proper; [| reflexivity].
  intros v. split; intros (k & -> & Hk); exists k; split; try reflexivity.
  - destruct e as [j |]; [| exact Hk]. simpl in Hk.
    now apply lookup_alter_is_Some in Hk.
  - destruct e as [j |]; [| exact Hk]. simpl.
    now apply lookup_alter_is_Some.
Qed.

(** When one turn of the expense loop goes through. *)
Lemma expense_insertable_iff u tx e (s : db) :
  is_Some (bank_transactions s !! tx) ->
  insertable (expense_link u tx e s) s = true
  <-> (exists k, e = Some k /\ is_Some (expenses s !! k))
      /\ e ∉ taken expense_id tx s.
Proof.
  intros Htx. unfold insertable, taken, links_of.
  rewrite (existsb_clash_absent invoice_id) by reflexivity.
  change (references (bank_transactions s)
            (Some (bank_transaction_id (expense_link u tx e s))))
    with (bool_decide (is_Some (bank_transactions s !! tx))).
  change (references (quotes s) (invoice_id (expense_link u tx e s)))
    with true.
  change (references (expenses s) (expense_id (expense_link u tx e s)))
    with (references (expenses s) e).
  rewrite (bool_decide_eq_true_2 _ Htx). cbn [negb]. rewrite !andb_true_r.
  destruct e as [k |].
  - change (expense_or_invoice (expense_link u tx (Some k) s)) with true.
    cbn [andb references].
    rewrite andb_true_iff, negb_true_iff, bool_decide_eq_true.
    rewrite (existsb_clash_taken expense_id _ _ k) by reflexivity.
    change (bank_transaction_id (expense_link u tx (Some k) s)) with tx.
    split.
    + intros [Hfree Hk]. split; [now exists k | exact Hfree].
    + intros [(k' & [= <-] & Hk) Hfree]. now split.
  - change (expense_or_invoice (expense_link u tx None s)) with false.
    cbn [andb]. split; [discriminate |].
    intros [(k & Hk & _) _]. discriminate.
Qed.

(** When one turn of the invoice loop goes through. *)
Lemma invoice_insertable_iff u tx i (s : db) :
  is_Some (bank_transactions s !! tx) ->
  insertable (invoice_link u tx i s) s = true
  <-> (exists k, i = Some k /\ is_Some (quotes s !! k))
      /\ i ∉ taken invoice_id tx s.
Proof.
  intros Htx. unfold insertable, taken, links_of.
  rewrite (existsb_clash_absent expense_id) by reflexivity.
  change (references (bank_transactions s)
            (Some (bank_transaction_id (invoice_link u tx i s))))
    with (bool_decide (is_Some (bank_transactions s !! tx))).
  change (references (expenses s) (expense_id (invoice_link u tx i s)))
    with true.
  change (references (quotes s) (invoice_id (invoice_link u tx i s)))
    with (references (quotes s) i).
  rewrite (bool_decide_eq_true_2 _ Htx). cbn [negb]. rewrite !andb_true_r.
  destruct i as [k |].
  - change (expense_or_invoice (invoice_link u tx (Some k) s)) with true.
    cbn [andb references].
    rewrite andb_true_iff, negb_true_iff, bool_decide_eq_true.
    rewrite (existsb_clash_taken invoice_id _ _ k) by reflexivity.
    change (bank_transaction_id (invoice_link u tx (Some k) s)) with tx.
    split.
    + intros [Hfree Hk]. split; [now exists k | exact Hfree].
    + intros [(k' & [= <-] & Hk) Hfree]. now split.
  - change (expense_or_invoice (invoice_link u tx None s)) with false.
    cbn [andb]. split; [discriminate |].
    intros [(k & Hk & _) _]. discriminate.
Qed.

Lemma taken_after (c : reconciliation_links_row -> option uuid) tx
    (l : reconciliation_links_row) (s : db) :
  bank_transaction_id l = tx ->
  taken c tx
    (set_reconciliation_links (fun links => links ++ [l])%list s)
  = (taken c tx s ++ [c l])%list.
Proof.
  intros Hl. unfold taken, links_of. simpl.
  rewrite filter_app, filter_cons_True by exact Hl.
  now rewrite map_app.
Qed.

Lemma conditions_cons (v : option uuid) (ids before : list (option uuid)) :
  ((v ∉ before) /\ NoDup ids
   /\ Forall (fun x => x ∉ (before ++ [v])%list) ids)
  <-> (NoDup (v :: ids) /\ Forall (fun x => x ∉ before) (v :: ids)).
Proof.
  rewrite NoDup_cons, Forall_cons. split.
  - intros (Hv & Hnd & Hall). repeat split; try assumption.
    + intros Hin. rewrite Forall_forall in Hall.
      apply (Hall v Hin). apply elem_of_app. right. now left.
    + eapply Forall_impl; [exact Hall |]. intros x Hx Hin. apply Hx.
      apply elem_of_app. now left.
  - intros ((Hv & Hnd) & Hfree & Hall). repeat split; try assumption.
    rewrite Forall_forall in *. intros x Hx Hin.
    apply elem_of_app in Hin as [Hin | Hin].
    + exact (Hall x Hx Hin).
    + apply list_elem_of_singleton in Hin. subst. contradiction.
Qed.

(** When the expense loop goes through. *)
Lemma expense_loop_succeeds u tx (ids : list (option uuid)) :
  forall s : db,
    is_Some (bank_transactions s !! tx) ->
    (exists s', foreach (link_expense u tx) ids s = Ok s')
    <-> on_file (expenses s) ids
        /\ NoDup ids
        /\ Forall (fun x => x ∉ taken expense_id tx s) ids.
Proof.
  induction ids as [| e ids IH]; intros s Htx.
  - simpl. split; [intros _ | intros _; now exists s].
    repeat split; constructor.
  - cbn [foreach].
    set (s1 := set_expenses (mark_linked tx e)
                 (set_reconciliation_links
                    (fun links => links ++ [expense_link u tx e s])%list s)).
    assert (Hrest :
      (exists s', foreach (link_expense u tx) ids s1 = Ok s')
      <-> on_file (expenses s) ids
          /\ NoDup ids
          /\ Forall (fun x => x ∉ (taken expense_id tx s ++ [e])%list) ids).
    { rewrite (IH s1 Htx). subst s1. cbn [expenses set_expenses
        set_reconciliation_links]. rewrite on_file_mark.
      unfold taken at 1, links_of. cbn [reconciliation_links set_expenses
        set_reconciliation_links].
      change (map expense_id
                (filter (fun l => bank_transaction_id l = tx)
                   (reconciliation_links s ++ [expense_link u tx e s])%list))
        with (taken expense_id tx
                (set_reconciliation_links
                   (fun links => links ++ [expense_link u tx e s])%list s)).
      now rewrite taken_after. }
    pose proof (expense_insertable_iff u tx e s Htx) as Hstep.
    unfold on_file. rewrite Forall_cons.
    rewrite <- (conditions_cons e ids (taken expense_id tx s)).
    split.
    + intros (s' & Hrun).
      destruct (link_expense u tx e s) as [s1' | err] eqn:He;
        simpl in Hrun; [| discriminate].
      apply link_expense_Ok in He as [Hok ->]. fold s1 in Hrun.
      apply Hstep in Hok as [Hk Hfree].
      destruct (proj1 Hrest (ex_intro _ s' Hrun)) as (Hfile & Hnd & Hall).
      repeat split; assumption.
    + intros ((Hk & Hfile) & Hfree & Hnd & Hall).
      rewrite (link_expense_insertable u tx e s)
        by (apply Hstep; now split).
      simpl. fold s1. apply Hrest. repeat split; assumption.
Qed.

(** When the invoice loop goes through. *)
Lemma invoice_loop_succeeds u tx (ids : list (option uuid)) :
  forall s : db,
    is_Some (bank_transactions s !! tx) ->
    (exists s', foreach (link_invoice u tx) ids s = Ok s')
    <-> on_file (quotes s) ids
        /\ NoDup ids
        /\ Forall (fun x => x ∉ taken invoice_id tx s) ids.
Proof.
  induction ids as [| i ids IH]; intros s Htx.
  - simpl. split; [intros _ | intros _; now exists s].
    repeat split; constructor.
  - cbn [foreach].
    set (s1 := set_reconciliation_links
                 (fun links => links ++ [invoice_link u tx i s])%list s).
    assert (Hrest :
      (exists s', foreach (link_invoice u tx) ids s1 = Ok s')
      <-> on_file (quotes s) ids
          /\ NoDup ids
          /\ Forall (fun x => x ∉ (taken invoice_id tx s ++ [i])%list) ids).
    { rewrite (IH s1 Htx). subst s1. now rewrite taken_after. }
    pose proof (invoice_insertable_iff u tx i s Htx) as Hstep.
    unfold on_file. rewrite Forall_cons.
    rewrite <- (conditions_cons i ids (taken invoice_id tx s)).
    split.
    + intros (s' & Hrun).
      destruct (link_invoice u tx i s) as [s1' | err] eqn:Hi;
        simpl in Hrun; [| discriminate].
      apply link_invoice_Ok in Hi as [Hok ->]. fold s1 in Hrun.
      apply Hstep in Hok as [Hk Hfree].
      destruct (proj1 Hrest (ex_intro _ s' Hrun)) as (Hfile & Hnd & Hall).
      repeat split; assumption.
    + intros ((Hk & Hfile) & Hfree & Hnd & Hall).
      unfold link_invoice. fold (invoice_link u tx i s).
      rewrite (insert_insertable _ s) by (apply Hstep; now split).
      simpl. fold s1. apply Hrest. repeat split; assumption.
Qed.

Lemma taken_none (c : reconciliation_links_row -> option uuid) tx (s : db) :
  taken c tx
    (set_reconciliation_links
       (filter (fun l => bank_transaction_id l <> tx)) s) = [].
Proof. unfold taken, links_of. simpl. now rewrite filter_this_of_other. Qed.

Lemma on_file_free {V : Type} (t : gmap uuid V) (ids before : list (option uuid)) :
  on_file t ids ->
  Forall (fun x => x = None) before ->
  Forall (fun x => x ∉ before) ids.
Proof.
  intros Hfile Hnone. eapply Forall_impl; [exact Hfile |].
  intros x (k & -> & _) Hin. rewrite Forall_forall in Hnone.
  now specialize (Hnone _ Hin).
Qed.

(** When a call goes through. *)
Lemma reconcile_succeeds tx exps invs (s : db) :
  (exists s', reconcile_transaction_multi tx exps invs s = Ok s')
  <-> is_Some (bank_transactions s !! tx)
      /\ on_file (expenses s) (default [] exps)
      /\ NoDup (default [] exps)
      /\ on_file (quotes s) (default [] invs)
      /\ NoDup (default [] invs).
Proof.
  set (s0 := set_reconciliation_links
               (filter (fun l => bank_transaction_id l <> tx)) s).
  split.
  - intros (s' & Hrun).
    destruct (reconcile_Ok _ _ _ _ _ Hrun)
      as (bt & s1 & s2 & Hbt & HE & HI & ->). fold s0 in HE.
    assert (Htx : is_Some (bank_transactions s0 !! tx)) by (now exists bt).
    destruct (proj1 (expense_loop_succeeds _ tx _ s0 Htx) (ex_intro _ _ HE))
      as (HfE & HnE & _).
    destruct (expense_loop_frame _ _ _ _ _ HE) as (HbtE & HqE & _).
    assert (Htx1 : is_Some (bank_transactions s1 !! tx)) by (now rewrite HbtE).
    destruct (proj1 (invoice_loop_succeeds _ tx _ s1 Htx1) (ex_intro _ _ HI))
      as (HfI & HnI & _).
    rewrite HqE in HfI. split; [now exists bt |].
    split; [exact HfE |]. split; [exact HnE |]. split; [exact HfI | exact HnI].
  - intros ([bt Hbt] & HfE & HnE & HfI & HnI).
    assert (Htx : is_Some (bank_transactions s0 !! tx)) by (now exists bt).
    destruct (proj2 (expense_loop_succeeds (bt_user_id bt) tx
                       (default [] exps) s0 Htx)) as (s1 & HE).
    { split; [exact HfE |]. split; [exact HnE |].
      unfold s0. rewrite taken_none.
      apply Forall_true. intros x. apply not_elem_of_nil. }
    destruct (expense_loop_frame _ _ _ _ _ HE) as (HbtE & HqE & _).
    pose proof (expense_loop_links _ _ _ _ _ HE) as HLE.
    assert (Htx1 : is_Some (bank_transactions s1 !! tx)) by (now rewrite HbtE).
    destruct (proj2 (invoice_loop_succeeds (bt_user_id bt) tx
                       (default [] invs) s1 Htx1)) as (s2 & HI).
    { rewrite HqE. split; [exact HfI |]. split; [exact HnI |].
      apply (on_file_free (quotes s)); [exact HfI |].
      unfold taken, links_of. rewrite HLE, filter_app.
      unfold s0 at 1. cbn [reconciliation_links set_reconciliation_links].
      rewrite filter_this_of_other. cbn [app].
      apply Forall_forall. intros x Hx.
      apply list_elem_of_fmap in Hx as (l & -> & Hl).
      apply list_elem_of_filter in Hl as [_ Hl].
      apply list_elem_of_fmap in Hl as (e & -> & _). reflexivity. }
    exists (set_bank_transactions (alter mark_transaction tx) s2).
    rewrite reconcile_unfold, Hbt. cbn [fmap option_fmap option_map].
    fold s0. rewrite HE. cbn [bind]. rewrite HI. reflexivity.
Qed.

(** What a call leaves of the tables it reads. *)
Lemma reconcile_tables tx exps invs (s s' : db) :
  reconcile_transaction_multi tx exps invs s = Ok s' ->
  quotes s' = quotes s
  /\ bank_transactions s' = alter mark_transaction tx (bank_transactions s)
  /\ (forall k,
        expenses s' !! k
        = if bool_decide (Some k ∈ default [] exps)
          then mark_expense tx <$> expenses s !! k
          else expenses s !! k).
Proof.
  intros Hrun.
  destruct (reconcile_Ok _ _ _ _ _ Hrun) as (bt & s1 & s2 & Hbt & HE & HI & ->).
  destruct (expense_loop_frame _ _ _ _ _ HE) as (HbtE & HqE & _).
  destruct (invoice_loop_frame _ _ _ _ _ HI) as (HbtI & HqI & HexI & _).
  simpl in *. split; [now rewrite HqI, HqE |].
  split; [now rewrite HbtI, HbtE |].
  intros k. rewrite HexI.
  now rewrite (expense_loop_expenses _ _ _ _ _ k HE).
Qed.

(** What a call leaves of the links of another transaction. *)
Lemma reconcile_other_links tx tx' exps invs (s s' : db) :
  reconcile_transaction_multi tx exps invs s = Ok s' ->
  tx' <> tx ->
  links_of tx' s' = links_of tx' s.
Proof.
  intros Hrun Hne.
  destruct (reconcile_links _ _ _ _ _ Hrun) as (L & HL & _ & Htx).
  unfold links_of. rewrite HL. now apply links_of_other.
Qed.

Lemma coalesce_sum_app (a b : list (option decimal)) :
  coalesce_sum (a ++ b) = (coalesce_sum a + coalesce_sum b)%Z.
Proof.
  unfold coalesce_sum, omap.
  induction a as [| [x |] a IH]; simpl in *; lia.
Qed.

Lemma unreconcile_Ok tx (s : db) :
  unreconcile_transaction tx s
  = Ok (set_bank_transactions (alter unmark_transaction tx)
          (set_reconciliation_links
             (filter (fun l => bank_transaction_id l <> tx))
             (set_expenses
                (fmap (fun e =>
                         if bool_decide (ex_reconciled_transaction_id e
                                         = Some tx)
                         then unmark_expense e
                         else e)) s))).
Proof. reflexivity. Qed.

(** X11. [reconcile_transaction_multi] goes through exactly when the
    transaction is on file, every id of the two arrays is not null and is on
    file (an expense, an invoice), and neither array names an id twice; a
    null array counts as empty.  For a transaction that is not on file it
    raises 'Transaction not found' whatever the arrays; and a call that
    raises leaves the ledger as it was. *)
Theorem reconcile_succeeds_iff :
  forall (p_transaction_id : uuid)
         (p_expense_ids p_invoice_ids : option (list (option uuid)))
         (s : db),
    ((exists s',
         reconcile_transaction_multi p_transaction_id
           p_expense_ids p_invoice_ids s = Ok s')
     <-> is_Some (bank_transactions s !! p_transaction_id)
         /\ on_file (expenses s) (default [] p_expense_ids)
         /\ NoDup (default [] p_expense_ids)
         /\ on_file (quotes s) (default [] p_invoice_ids)
         /\ NoDup (default [] p_invoice_ids))
    /\ (bank_transactions s !! p_transaction_id = None ->
        reconcile_transaction_multi p_transaction_id
          p_expense_ids p_invoice_ids s
        = Raise (raise_exception "Transaction not found"))
    /\ (forall e : sql_error,
          reconcile_transaction_multi p_transaction_id
            p_expense_ids p_invoice_ids s = Raise e ->
          reconcileMulti p_transaction_id p_expense_ids p_invoice_ids s = s).
Proof.
  intros tx exps invs s. split; [apply reconcile_succeeds |]. split.
  - intros Hnone. unfold reconcile_transaction_multi. now rewrite Hnone.
  - intros e He. unfold reconcileMulti. now rewrite He.
Qed.

Lemma reconcile_succeeds_iff_witness :
  exists s',
    reconcile_transaction_multi "tx-1" (Some [Some "exp-2"; Some "exp-1"])
      None Samples.ledger = Ok s'.
Proof.
  apply (proj1 (reconcile_succeeds_iff "tx-1"
                  (Some [Some "exp-2"; Some "exp-1"]) None Samples.ledger)).
  split; [now eexists |].
  split; [repeat constructor; eexists; (split; [reflexivity | now eexists]) |].
  split; [| split; constructor].
  repeat constructor; [| apply not_elem_of_nil].
  intros Hin. apply list_elem_of_singleton in Hin. discriminate.
Defined.

(** X12. A call that goes through touches nothing beyond its transaction and
    the expenses it names.  The invoices are as they were, also the ones it
    links; another transaction keeps its row and its links; the transaction
    itself keeps every column but the flag; a named expense is flagged and
    points back at the transaction with its amount unchanged; and an expense
    that is not named keeps its row as it was, so one that the transaction
    was linked to before stays flagged although its link is gone. *)
Theorem reconcile_frame :
  forall (p_transaction_id : uuid)
         (p_expense_ids p_invoice_ids : option (list (option uuid)))
         (s s' : db),
    reconcile_transaction_multi p_transaction_id p_expense_ids p_invoice_ids s
    = Ok s' ->
    quotes s' = quotes s
    /\ (forall other : uuid,
          other <> p_transaction_id ->
          bank_transactions s' !! other = bank_transactions s !! other
          /\ links_of other s' = links_of other s)
    /\ bank_transactions s' !! p_transaction_id
       = mark_transaction <$> bank_transactions s !! p_transaction_id
    /\ (forall k : uuid,
          Some k ∈ default [] p_expense_ids ->
          expenses s' !! k
          = mark_expense p_transaction_id <$> expenses s !! k)
    /\ (forall k : uuid,
          Some k ∉ default [] p_expense_ids ->
          expenses s' !! k = expenses s !! k
          /\ Forall (fun l => expense_id l <> Some k)
               (links_of p_transaction_id s')).
Proof.
  intros tx exps invs s s' Hrun.
  destruct (reconcile_tables _ _ _ _ _ Hrun) as (Hq & Hbt & Hex).
  split; [exact Hq |]. split.
  { intros other Hne. split.
    - rewrite Hbt. now apply lookup_alter_ne.
    - now apply (reconcile_other_links tx other exps invs). }
  split; [rewrite Hbt; apply lookup_alter_eq |]. split.
  { intros k Hk. now rewrite Hex, bool_decide_eq_true_2. }
  intros k Hk. split; [now rewrite Hex, bool_decide_eq_false_2 |].
  destruct (reconcile_Ok _ _ _ _ _ Hrun) as (bt & _ & _ & Hbt' & _).
  rewrite (links_of_reconciled _ _ _ _ _ _ Hbt' Hrun).
  apply Forall_app. split; apply Forall_map, Forall_forall; intros x Hx.
  - simpl. intros ->. contradiction.
  - simpl. discriminate.
Qed.

Lemma reconcile_frame_witness :
  expenses
    (reconcileMulti "tx-1" (Some [Some "exp-2"]) None Samples.ledger)
  !! "exp-1"
  = expenses Samples.ledger !! "exp-1".
Proof.
  refine (proj1 (proj2 (proj2 (proj2 (proj2
            (reconcile_frame "tx-1" (Some [Some "exp-2"]) None
               Samples.ledger _ _)))) "exp-1" _)).
  - vm_compute. reflexivity.
  - intros Hin. apply list_elem_of_singleton in Hin. discriminate.
Defined.

(** X13. After a call that goes through, the summary view shows the
    transaction reconciled, with one link for each id passed and, as the
    total matched, the sum of the full amounts of the named expenses and the
    full totals of the named invoices: nothing is pro-rated against the
    amount of the transaction, and the unmatched amount is what the
    magnitude of the transaction exceeds that sum by, below zero when it
    falls short. *)
Theorem summary_after_reconcile :
  forall (p_transaction_id : uuid)
         (p_expense_ids p_invoice_ids : option (list (option uuid)))
         (s s' : db),
    reconcile_transaction_multi p_transaction_id p_expense_ids p_invoice_ids s
    = Ok s' ->
    exists (bt : bank_transactions_row) (row : reconciliation_summary_row),
      bank_transactions s !! p_transaction_id = Some bt
      /\ reconciliation_summary s' p_transaction_id = Some row
      /\ rs_is_reconciled row = true
      /\ rs_transaction_amount row = bt_amount bt
      /\ rs_link_count row
         = (length (default [] p_expense_ids)
            + length (default [] p_invoice_ids))%nat
      /\ rs_total_matched row
         = (coalesce_sum (expense_amounts s (default [] p_expense_ids))
            + coalesce_sum (invoice_totals s (default [] p_invoice_ids)))%Z
      /\ rs_unmatched_amount row
         = (Z.abs (bt_amount bt) - rs_total_matched row)%Z.
Proof.
  intros tx exps invs s s' Hrun.
  destruct (reconcile_Ok _ _ _ _ _ Hrun) as (bt & _ & _ & Hbt & _).
  destruct (reconcile_tables _ _ _ _ _ Hrun) as (_ & Hbt' & _).
  pose proof (links_of_reconciled _ _ _ _ _ _ Hbt Hrun) as Hlinks.
  exists bt. unfold reconciliation_summary.
  rewrite Hbt', lookup_alter_eq, Hbt. cbn [fmap option_fmap option_map mbind
    option_bind]. eexists. split; [reflexivity |]. split; [reflexivity |].
  cbn [rs_is_reconciled rs_transaction_amount rs_link_count rs_total_matched
       rs_unmatched_amount mark_transaction bt_is_reconciled bt_amount].
  rewrite Hlinks. split; [reflexivity |]. split; [reflexivity |].
  split; [now rewrite length_app, !length_map |]. split; [| reflexivity].
  rewrite map_app, coalesce_sum_app, !map_map. reflexivity.
Qed.

Lemma summary_after_reconcile_witness :
  exists (bt : bank_transactions_row) (row : reconciliation_summary_row),
    bank_transactions Samples.ledger !! "tx-1" = Some bt
    /\ reconciliation_summary
         (reconcileMulti "tx-1" (Some [Some "exp-1"; Some "exp-2"])
            (Some [Some "inv-1"]) Samples.ledger) "tx-1" = Some row
    /\ rs_link_count row = 3%nat
    /\ rs_total_matched row = 66000%Z
    /\ rs_unmatched_amount row = (-54000)%Z.
Proof.
  destruct (summary_after_reconcile "tx-1" (Some [Some "exp-1"; Some "exp-2"])
              (Some [Some "inv-1"]) Samples.ledger
              (reconcileMulti "tx-1" (Some [Some "exp-1"; Some "exp-2"])
                 (Some [Some "inv-1"]) Samples.ledger))
    as (bt & row & Hbt & Hrow & _ & Hamount & Hcount & Htotal & Hrest).
  { vm_compute. reflexivity. }
  exists bt, row. split; [exact Hbt |]. split; [exact Hrow |].
  split; [exact Hcount |]. split; [exact Htotal |].
  rewrite Hrest, Htotal. injection Hbt as <-. reflexivity.
Defined.

Lemma unmark_twice tx (t : gmap uuid bank_transactions_row) :
  alter unmark_transaction tx (alter unmark_transaction tx t)
  = alter unmark_transaction tx t.
Proof.
  apply map_eq. intros j. destruct (decide (tx = j)) as [-> | Hne].
  - rewrite !lookup_alter_eq. now destruct (t !! j).
  - now rewrite !lookup_alter_ne.
Qed.

Lemma links_of_unreconciled tx tx' (s : db) :
  links_of tx'
    (set_reconciliation_links
       (filter (fun l => bank_transaction_id l <> tx)) s)
  = if bool_decide (tx' = tx) then [] else links_of tx' s.
Proof.
  unfold links_of. simpl. case_bool_decide as Htx.
  - subst. apply filter_this_of_other.
  - apply list_filter_filter_l. intros x ->. exact Htx.
Qed.

(** X14. [unreconcile_transaction] never raises, also for a transaction that
    is not on file.  It leaves the transaction, when there is one, unflagged
    with its two legacy references cleared, no link of the transaction, and
    no expense pointing back at it: every expense that did is unflagged,
    whether or not a link went with it.  It leaves alone the invoices, the
    rows and links of every other transaction, and every expense that points
    elsewhere or nowhere, even one the transaction was linked to. *)
Theorem unreconcile_clears :
  forall (p_transaction_id : uuid) (s : db),
    exists s' : db,
      unreconcile_transaction p_transaction_id s = Ok s'
      /\ bank_transactions s' !! p_transaction_id
         = unmark_transaction <$> bank_transactions s !! p_transaction_id
      /\ links_of p_transaction_id s' = []
      /\ (forall (k : uuid) (ex : expenses_row),
            expenses s !! k = Some ex ->
            ex_reconciled_transaction_id ex = Some p_transaction_id ->
            expenses s' !! k = Some (unmark_expense ex))
      /\ (forall (k : uuid) (ex : expenses_row),
            expenses s !! k = Some ex ->
            ex_reconciled_transaction_id ex <> Some p_transaction_id ->
            expenses s' !! k = Some ex)
      /\ (forall (k : uuid) (ex : expenses_row),
            expenses s' !! k = Some ex ->
            ex_reconciled_transaction_id ex <> Some p_transaction_id)
      /\ quotes s' = quotes s
      /\ (forall other : uuid,
            other <> p_transaction_id ->
            bank_transactions s' !! other = bank_transactions s !! other
            /\ links_of other s' = links_of other s).
Proof.
  intros tx s. eexists. split; [apply unreconcile_Ok |].
  split; [apply lookup_alter_eq |].
  split.
  { change (links_of tx (set_bank_transactions ?f ?t)) with (links_of tx t).
    rewrite links_of_unreconciled. now rewrite bool_decide_eq_true_2. }
  split.
  { intros k ex Hk Href. simpl. rewrite lookup_fmap, Hk. simpl.
    now rewrite bool_decide_eq_true_2. }
  split.
  { intros k ex Hk Href. simpl. rewrite lookup_fmap, Hk. simpl.
    now rewrite bool_decide_eq_false_2. }
  split.
  { intros k ex. simpl. rewrite lookup_fmap.
    destruct (expenses s !! k) as [ex0 |]; simpl; [| discriminate].
    case_bool_decide as Href; intros [= <-]; [discriminate | exact Href]. }
  split; [reflexivity |].
  intros other Hne. split; [now apply lookup_alter_ne |].
  change (links_of other (set_bank_transactions ?f ?t)) with (links_of other t).
  rewrite links_of_unreconciled. now rewrite bool_decide_eq_false_2.
Qed.

(** X15. [unreconcile_transaction] is idempotent: a second call right after
    the first goes through and leaves the ledger as the first left it. *)
Theorem unreconcile_idempotent :
  forall (p_transaction_id : uuid) (s : db),
    exists s' : db,
      unreconcile_transaction p_transaction_id s = Ok s'
      /\ unreconcile_transaction p_transaction_id s' = Ok s'.
Proof.
  intros tx s. eexists. split; [apply unreconcile_Ok |].
  rewrite unreconcile_Ok. f_equal.
  unfold set_bank_transactions, set_reconciliation_links, set_expenses.
  cbn [bank_transactions expenses quotes reconciliation_links].
  f_equal.
  - apply unmark_twice.
  - apply map_eq. intros k. rewrite !lookup_fmap.
    destruct (expenses s !! k) as [ex |]; [| reflexivity]. simpl. f_equal.
    destruct (decide (ex_reconciled_transaction_id ex = Some tx)) as [H | H].
    + rewrite (bool_decide_eq_true_2 _ H). reflexivity.
    + rewrite (bool_decide_eq_false_2 _ H).
      now rewrite (bool_decide_eq_false_2 _ H).
  - now apply list_filter_filter_l.
Qed.

(** X16. Unreconcile undoes a reconcile of any size.  After a call of
    [reconcile_transaction_multi] that went through, whatever its arrays,
    [unreconcile_transaction] leaves the transaction unflagged and without
    links, every expense the call named unflagged with no back-reference and
    its amount as it was before the two calls, and the invoices, linked or
    not, as they were. *)
Theorem unreconcile_after_reconcile_multi :
  forall (p_transaction_id : uuid)
         (p_expense_ids p_invoice_ids : option (list (option uuid)))
         (s s1 : db),
    reconcile_transaction_multi p_transaction_id p_expense_ids p_invoice_ids s
    = Ok s1 ->
    exists s2 : db,
      unreconcile_transaction p_transaction_id s1 = Ok s2
      /\ transaction_flag p_transaction_id s2 = Some false
      /\ links_of p_transaction_id s2 = []
      /\ (forall k : uuid,
            Some k ∈ default [] p_expense_ids ->
            exists ex : expenses_row,
              expenses s !! k = Some ex
              /\ expenses s2 !! k = Some (unmark_expense ex))
      /\ quotes s2 = quotes s.
Proof.
  intros tx exps invs s s1 Hrun.
  destruct (reconcile_tables _ _ _ _ _ Hrun) as (Hq & Hbt & Hex).
  destruct (reconcile_Ok _ _ _ _ _ Hrun) as (bt & _ & _ & Hbt0 & _).
  eexists. split; [apply unreconcile_Ok |].
  split.
  { unfold transaction_flag. simpl.
    now rewrite lookup_alter_eq, Hbt, lookup_alter_eq, Hbt0. }
  split.
  { change (links_of tx (set_bank_transactions ?f ?t)) with (links_of tx t).
    rewrite links_of_unreconciled. now rewrite bool_decide_eq_true_2. }
  split; [| exact Hq].
  intros k Hk.
  destruct (proj1 (reconcile_succeeds tx exps invs s) (ex_intro _ _ Hrun))
    as (_ & Hfile & _).
  unfold on_file in Hfile. rewrite Forall_forall in Hfile.
  destruct (Hfile _ Hk) as (k' & [= <-] & [ex Hrow]).
  exists ex. split; [exact Hrow |].
  simpl. rewrite lookup_fmap, Hex, (bool_decide_eq_true_2 _ Hk), Hrow. simpl.
  now rewrite bool_decide_eq_true_2.
Qed.

Lemma unreconcile_after_reconcile_multi_witness :
  exists s2 : db,
    unreconcile_transaction "tx-1"
      (reconcileMulti "tx-1" (Some [Some "exp-1"; Some "exp-2"])
         (Some [Some "inv-1"]) Samples.ledger) = Ok s2
    /\ transaction_flag "tx-1" s2 = Some false
    /\ links_of "tx-1" s2 = [].
Proof.
  destruct (unreconcile_after_reconcile_multi "tx-1"
              (Some [Some "exp-1"; Some "exp-2"]) (Some [Some "inv-1"])
              Samples.ledger
              (reconcileMulti "tx-1" (Some [Some "exp-1"; Some "exp-2"])
                 (Some [Some "inv-1"]) Samples.ledger))
    as (s2 & H1 & H2 & H3 & _).
  { vm_compute. reflexivity. }
  exists s2. repeat split; assumption.
Defined.

(** X17. An expense shared by two transactions.  When two transactions on
    file reconcile the same expense one after the other, both calls go
    through and the expense points back at the second.  Un-reconciling the
    second then unflags the expense, while the first transaction stays
    flagged and still holds its link to that expense: a reconciled
    transaction whose only expense reads as not reconciled. *)
Theorem shared_expense_left_unflagged :
  forall (first second v_expense_id : uuid) (s : db)
         (bt1 bt2 : bank_transactions_row) (ex : expenses_row),
    first <> second ->
    bank_transactions s !! first = Some bt1 ->
    bank_transactions s !! second = Some bt2 ->
    expenses s !! v_expense_id = Some ex ->
    exists s1 s2 s3 : db,
      reconcile_transaction_multi first (Some [Some v_expense_id]) (Some []) s
      = Ok s1
      /\ reconcile_transaction_multi second (Some [Some v_expense_id])
           (Some []) s1 = Ok s2
      /\ expenses s2 !! v_expense_id = Some (mark_expense second ex)
      /\ unreconcile_transaction second s2 = Ok s3
      /\ expenses s3 !! v_expense_id = Some (unmark_expense ex)
      /\ transaction_flag first s3 = Some true
      /\ links_of first s3
         = [ {| user_id := bt_user_id bt1;
                bank_transaction_id := first;
                expense_id := Some v_expense_id;
                invoice_id := None;
                amount_matched := Some (ex_amount ex) |} ].
Proof.
  intros tx1 tx2 e s bt1 bt2 ex Hne Hbt1 Hbt2 Hex.
  assert (Hlist : forall t : db,
            is_Some (expenses t !! e) ->
            on_file (expenses t) (default [] (Some [Some e]))
            /\ NoDup (default [] (Some [Some e]))
            /\ on_file (quotes t) (default [] (Some []))
            /\ NoDup (default [] (Some ([] : list (option uuid))))).
  { intros t He. split; [constructor; [now exists e | constructor] |].
    split; [apply NoDup_singleton |]. split; constructor. }
  destruct (proj2 (reconcile_succeeds tx1 (Some [Some e]) (Some []) s))
    as (s1 & Hrun1).
  { split; [now exists bt1 |]. apply Hlist. now exists ex. }
  destruct (reconcile_tables _ _ _ _ _ Hrun1) as (Hq1 & Hb1 & He1).
  assert (Hex1 : expenses s1 !! e = Some (mark_expense tx1 ex)).
  { rewrite He1, bool_decide_eq_true_2 by (simpl; now left).
    now rewrite Hex. }
  destruct (proj2 (reconcile_succeeds tx2 (Some [Some e]) (Some []) s1))
    as (s2 & Hrun2).
  { split.
    - rewrite Hb1, lookup_alter_ne by exact Hne. now exists bt2.
    - apply Hlist. rewrite Hex1. now eexists. }
  destruct (reconcile_tables _ _ _ _ _ Hrun2) as (Hq2 & Hb2 & He2).
  assert (Hex2 : expenses s2 !! e = Some (mark_expense tx2 ex)).
  { rewrite He2, bool_decide_eq_true_2 by (simpl; now left).
    now rewrite Hex1. }
  exists s1, s2. eexists. split; [exact Hrun1 |]. split; [exact Hrun2 |].
  split; [exact Hex2 |]. split; [apply unreconcile_Ok |].
  split.
  { simpl. rewrite lookup_fmap, Hex2. simpl.
    now rewrite bool_decide_eq_true_2. }
  split.
  { unfold transaction_flag. simpl.
    rewrite lookup_alter_ne by congruence.
    rewrite Hb2, lookup_alter_ne by congruence.
    now rewrite Hb1, lookup_alter_eq, Hbt1. }
  change (links_of tx1 (set_bank_transactions ?f ?t)) with (links_of tx1 t).
  rewrite links_of_unreconciled, bool_decide_eq_false_2 by exact Hne.
  change (links_of tx1 (set_expenses ?f ?t)) with (links_of tx1 t).
  rewrite (reconcile_other_links tx2 tx1 _ _ _ _ Hrun2 Hne).
  rewrite (links_of_reconciled _ _ _ _ _ _ Hbt1 Hrun1).
  simpl. unfold expense_link. simpl. now rewrite Hex.
Qed.

Lemma shared_expense_left_unflagged_witness :
  exists s1 s2 s3 : db,
    reconcile_transaction_multi "tx-1" (Some [Some "exp-2"]) (Some [])
      Samples.twoTransactions = Ok s1
    /\ reconcile_transaction_multi "tx-2" (Some [Some "exp-2"]) (Some []) s1
       = Ok s2
    /\ unreconcile_transaction "tx-2" s2 = Ok s3
    /\ ex_is_reconciled <$> expenses s3 !! "exp-2" = Some false
    /\ transaction_flag "tx-1" s3 = Some true
    /\ length (links_of "tx-1" s3) = 1%nat.
Proof.
  destruct (shared_expense_left_unflagged "tx-1" "tx-2" "exp-2"
              Samples.twoTransactions
              (mk_bank_transaction "user-1" (-12000)%Z true None None)
              (mk_bank_transaction "user-1" (-4000)%Z false None None)
              (mk_expense 4000%Z false None))
    as (s1 & s2 & s3 & H1 & H2 & _ & H3 & H4 & H5 & H6);
    [discriminate | reflexivity | reflexivity | reflexivity |].
  exists s1, s2, s3.
  split; [exact H1 |]. split; [exact H2 |]. split; [exact H3 |].
  split; [exact (f_equal (fmap ex_is_reconciled) H4) |].
  split; [exact H5 |]. exact (f_equal length H6).
Defined.

End LedgerMore.
